(** * DonationRecordWithDB: a shallow embedding of the Express server

    The development follows the server source (the Express application,
    with the two Mongoose schemas [Account] and [Donor]).

    Conventions of the embedding.
    - A JavaScript string is a [string]; its characters stand for code
      units below 256.
    - A JavaScript number is a [num]: NaN, an infinity, or a finite value
      kept as an exact rational (rounding to binary64 is not modelled).
    - An ObjectId is an [ObjectId] (a number). In a [Request] the route
      parameters read as ids are well-formed and the body and query fields
      are absent or of the type the schema gives them; a [Received]
      request also says which casts fail, and [serve] what the handlers
      do then.
    - Documents have the paths of their schema and [_id]; the version key
      [__v] that Mongoose keeps beside them is not modelled.
    - The libraries the server calls and that are not part of it (bcrypt,
      the RegExp engine, the ordering MongoDB sorts by) are the fields of a
      [Platform] record; every theorem holds for every platform.
    - A handler is a function from the stores and the session to the new
      stores, the new session and the response. *)

From Stdlib Require Import QArith Ascii.
From stdpp Require Import base strings list gmap.

Local Open Scope string_scope.
Local Open Scope list_scope.
Set Warnings "-register-all".

(** ** JavaScript strings *)

Module JsString.

(** WhiteSpace and LineTerminator code units below 256: TAB, LF, VT, FF,
    CR, SP and NBSP. *)
Definition is_white (c : ascii) : bool :=
  let n := nat_of_ascii c in
  (Nat.eqb n 9 || Nat.eqb n 10 || Nat.eqb n 11 || Nat.eqb n 12
   || Nat.eqb n 13 || Nat.eqb n 32 || Nat.eqb n 160)%bool.

Fixpoint trimStart (s : string) : string :=
  match s with
  | String c r => if is_white c then trimStart r else s
  | EmptyString => EmptyString
  end.

Definition trimEnd (s : string) : string :=
  String.rev (trimStart (String.rev s)).

(** [String.prototype.trim]. *)
Definition trim (s : string) : string := trimEnd (trimStart s).

(** ToBoolean on a string: only the empty string is falsy. *)
Definition truthy (s : string) : bool :=
  match s with EmptyString => false | _ => true end.

(** ToBoolean on a field that may be absent ([undefined]). *)
Definition truthy_opt (o : option string) : bool :=
  match o with Some s => truthy s | None => false end.

Fixpoint starts_with (p s : string) : bool :=
  match p, s with
  | EmptyString, _ => true
  | String a p', String b s' => if Ascii.eqb a b then starts_with p' s' else false
  | String _ _, EmptyString => false
  end.

End JsString.

(** ** JavaScript numbers *)

Inductive num :=
| NaN
| Inf (negative : bool)
| Fin (q : Q).

Module Num.

(** [a <= b] on numbers: false as soon as one side is NaN. *)
Definition le (a b : num) : bool :=
  match a, b with
  | NaN, _ | _, NaN => false
  | Inf true, _ => true
  | _, Inf false => true
  | Inf false, _ => false
  | _, Inf true => false
  | Fin x, Fin y => Qle_bool x y
  end.

Definition is_digit (c : ascii) : bool :=
  let n := nat_of_ascii c in (Nat.leb 48 n && Nat.leb n 57)%bool.

Definition digit_val (c : ascii) : Z := Z.of_nat (nat_of_ascii c) - 48.

(** Longest run of decimal digits at the head of [s]: its value read in
    base ten after [acc], how many digits it has, and what follows. *)
Fixpoint digits (s : string) (acc : Z) (len : nat) : Z * nat * string :=
  match s with
  | String c r =>
      if is_digit c then digits r (10 * acc + digit_val c)%Z (S len)
      else (acc, len, s)
  | EmptyString => (acc, len, s)
  end.

(** Optional sign: [(negative, rest)]. *)
Definition sign (s : string) : bool * string :=
  match s with
  | String "-"%char r => (true, r)
  | String "+"%char r => (false, r)
  | _ => (false, s)
  end.

(** ExponentPart, when one follows: [e] or [E], an optional sign and at
    least one digit; otherwise the exponent is 0 and nothing is read. *)
Definition exponent (s : string) : Z :=
  match s with
  | String c r =>
      if (Ascii.eqb c "e"%char || Ascii.eqb c "E"%char)%bool then
        let '(neg, r') := sign r in
        let '(v, n, _) := digits r' 0%Z 0 in
        match n with
        | O => 0%Z
        | S _ => if neg then (- v)%Z else v
        end
      else 0%Z
  | EmptyString => 0%Z
  end.

(** [m * 10 ^ e] as a rational. *)
Definition scale (m e : Z) : Q :=
  if (0 <=? e)%Z then inject_Z (m * 10 ^ e)
  else Qmake m (Z.to_pos (10 ^ (- e))).

(** The global [parseFloat]: leading white space is skipped, the longest
    prefix that is a StrDecimalLiteral is read, and NaN is returned when
    there is none. *)
Definition parseFloat (s : string) : num :=
  let '(neg, s1) := sign (JsString.trimStart s) in
  if JsString.starts_with "Infinity" s1 then Inf neg
  else
    let '(ip, ni, r1) := digits s1 0%Z 0 in
    let '(m, nf, r2) :=
      match r1 with
      | String "."%char r => let '(v, n, r') := digits r ip 0 in (v, n, r')
      | _ => (ip, 0, r1)
      end in
    match (ni + nf)%nat with
    | O => NaN
    | S _ =>
        let v := scale m (exponent r2 - Z.of_nat nf) in
        Fin (if neg then Qopp v else v)
    end.

End Num.

(** ** Exceptions

    A computation either completes with a value or throws; [try]/[catch]
    is a [match] on the completion. *)

Inductive completion (A : Type) :=
| Normal (a : A)
| Throw (error : string).
Arguments Normal {A} a.
Arguments Throw {A} error.

#[global] Instance completion_ret : MRet completion := fun A a => Normal a.
#[global] Instance completion_bind : MBind completion := fun A B f c =>
  match c with
  | Normal a => f a
  | Throw e => Throw e
  end.

(** [x.trim()] on a body field: calling a method on [undefined] throws a
    TypeError. *)
Definition trim_method (x : option string) : completion string :=
  match x with
  | Some s => Normal (JsString.trim s)
  | None => Throw "TypeError"
  end.

(** ** JSON values sent in responses *)

Definition ObjectId := N.

Definition hex_digit (n : N) : ascii :=
  match String.get (N.to_nat n) "0123456789abcdef" with
  | Some c => c
  | None => "0"%char
  end.

Fixpoint hex (digits : nat) (n : N) (acc : string) : string :=
  match digits with
  | O => acc
  | S k => hex k (N.div n 16) (String (hex_digit (N.modulo n 16)) acc)
  end.

(** [id.toString()]: the 24 lower-case hexadecimal digits of the id. *)
Definition ObjectId_toString (i : ObjectId) : string := hex 24 i "".
Arguments ObjectId_toString : simpl never.

Inductive json :=
| JNull
| JBool (b : bool)
| JNum (q : Q)
| JStr (s : string)
| JId (i : ObjectId)
| JArr (items : list json)
| JObj (props : list (string * json)).

(** A property whose value is [undefined] is left out by JSON.stringify. *)
Definition prop {A} (k : string) (f : A → json) (o : option A) : list (string * json) :=
  match o with
  | Some a => [(k, f a)]
  | None => []
  end.

(** ** The two schemas *)

Module Account.
Record t := mk {
  _id : ObjectId;
  role : string;
  username : string;
  password : string }.

(** The stored document. *)
Definition document (a : t) : list (string * json) :=
  [("_id", JId (_id a)); ("role", JStr (role a));
   ("username", JStr (username a)); ("password", JStr (password a))].

(** [Account.findOne({ username })]: the first account with that name. *)
Definition findOne (l : list t) (u : string) : option t :=
  List.find (fun a => bool_decide (username a = u)) l.

(** [.select('-password')]: every path but the excluded one. *)
Definition select_exclude (k : string) (d : list (string * json)) : list (string * json) :=
  List.filter (fun kv => negb (bool_decide (kv.1 = k))) d.

(** [findByIdAndUpdate(id, { username, role })]: the first account with
    that id gets the supplied paths; paths left [undefined] are not
    written. *)
Fixpoint findByIdAndUpdate (l : list t) (id : ObjectId) (u r : option string) : list t :=
  match l with
  | [] => []
  | a :: rest =>
      if bool_decide (_id a = id) then
        mk (_id a) (default (role a) r) (default (username a) u) (password a) :: rest
      else a :: findByIdAndUpdate rest id u r
  end.

Fixpoint findByIdAndDelete (l : list t) (id : ObjectId) : list t :=
  match l with
  | [] => []
  | a :: rest =>
      if bool_decide (_id a = id) then rest else a :: findByIdAndDelete rest id
  end.
End Account.

Module Donation.
Record t := mk {
  _id : ObjectId;
  amount : option Q;
  date : option string }.

Definition to_json (d : t) : json :=
  JObj (prop "amount" JNum (amount d) ++ prop "date" JStr (date d)
        ++ [("_id", JId (_id d))]).
End Donation.

Module Donor.
Record t := mk {
  _id : ObjectId;
  name : string;
  address : string;
  city : string;
  donations : list Donation.t }.

Definition document (d : t) : list (string * json) :=
  [("_id", JId (_id d)); ("name", JStr (name d)); ("address", JStr (address d));
   ("city", JStr (city d)); ("donations", JArr (map Donation.to_json (donations d)))].

Definition to_json (d : t) : json := JObj (document d).

(** [Donor.findById(id)]. *)
Definition findById (l : list t) (id : ObjectId) : option t :=
  List.find (fun d => bool_decide (_id d = id)) l.

(** [Donor.findByIdAndDelete(id)]: the collection without the first
    document of that id. *)
Fixpoint findByIdAndDelete (l : list t) (id : ObjectId) : list t :=
  match l with
  | [] => []
  | d :: rest =>
      if bool_decide (_id d = id) then rest else d :: findByIdAndDelete rest id
  end.

(** [donor.save()]: the document of the same id is replaced by [d]. *)
Fixpoint save (d : t) (l : list t) : list t :=
  match l with
  | [] => []
  | x :: rest =>
      if bool_decide (_id x = _id d) then d :: rest else x :: save d rest
  end.

(** [donor.donations.id(donationId)]: the first subdocument of that id. *)
Definition donations_id (d : t) (donationId : ObjectId) : option Donation.t :=
  List.find (fun x => bool_decide (Donation._id x = donationId)) (donations d).

(** Assigning to the fields of the subdocument returned by
    [donations.id]: the subdocument lives in the donor's array, so the
    array holds [x'] where it held the first subdocument of that id. *)
Fixpoint assign (donationId : ObjectId) (x' : Donation.t) (l : list Donation.t)
  : list Donation.t :=
  match l with
  | [] => []
  | x :: rest =>
      if bool_decide (Donation._id x = donationId) then x' :: rest
      else x :: assign donationId x' rest
  end.

Definition with_donations (d : t) (ds : list Donation.t) : t :=
  mk (_id d) (name d) (address d) (city d) ds.
End Donor.

(** ** The aggregation pipeline of [GET /api/donors] *)

(** A document as it flows through the pipeline: the donor, and the field
    [totalDonation] once [$addFields] has run. *)
Record PipeDoc := {
  doc : Donor.t;
  totalDonation : option Q }.

Definition pipedoc_json (d : PipeDoc) : json :=
  JObj (Donor.document (doc d) ++ prop "totalDonation" JNum (totalDonation d)).

(** What the server does not implement itself. *)
Record Platform := {
  (** bcrypt: the 31 characters that follow the salt, for a cost, a salt
      and the data. *)
  bcrypt_digest : nat → string → string → string;
  (** [new RegExp(pattern, 'i')]: [None] when the pattern is not a regular
      expression (the constructor throws a SyntaxError), otherwise the
      [test] of the compiled expression. *)
  regexp_i : string → option (string → bool);
  (** The order [$sort] puts two documents in, for a field path. *)
  bson_le : string → PipeDoc → PipeDoc → bool;
  (** Whether the store takes the key of a [$sort] as a field path; it
      rejects the pipeline otherwise. *)
  sort_key_ok : string → bool }.

(** [bcrypt.hash(data, 10)] with the salt the library drew: the modular
    crypt format, version 2b and a two-digit cost. *)
Definition bcrypt_hash (P : Platform) (salt data : string) : string :=
  "$2b$10$" ++ salt ++ bcrypt_digest P 10 salt data.

Definition RegExp_i (P : Platform) (pattern : string) : completion (string → bool) :=
  match regexp_i P pattern with
  | Some re => Normal re
  | None => Throw "SyntaxError"
  end.

(** The conditions the server puts in a [$match]. *)
Inductive cond :=
| CRegExp (test : string → bool)
| CGte (x : num)
| CLte (x : num).

Inductive bson :=
| BString (s : string)
| BNumber (q : Q).

(** The value at the paths the server's [$match] stages test. *)
Definition path_value (k : string) (d : PipeDoc) : option bson :=
  if bool_decide (k = "name") then Some (BString (Donor.name (doc d)))
  else if bool_decide (k = "city") then Some (BString (Donor.city (doc d)))
  else if bool_decide (k = "address") then Some (BString (Donor.address (doc d)))
  else if bool_decide (k = "totalDonation") then BNumber <$> totalDonation d
  else None.

(** A condition holds of the value at a path; a missing value, or one of
    another type than the operand, does not match. *)
Definition holds (c : cond) (v : option bson) : bool :=
  match c, v with
  | CRegExp test, Some (BString s) => test s
  | CGte x, Some (BNumber q) => Num.le x (Fin q)
  | CLte x, Some (BNumber q) => Num.le (Fin q) x
  | _, _ => false
  end.

(** A query object maps paths to conditions; a document matches when every
    entry holds. *)
Definition matches (spec : gmap string cond) (d : PipeDoc) : bool :=
  forallb (fun kc => holds kc.2 (path_value kc.1 d)) (map_to_list spec).

(** The object literal [{ ...a, ...b }]: the properties of [a], then those
    of [b], a later property replacing an earlier one of the same key. *)
Definition spread {V} (a b : gmap string V) : gmap string V := b ∪ a.

(** [{ $sum: "$donations.amount" }]: the amounts that are present, added
    up from 0. *)
Definition sum_amounts (ds : list Donation.t) : Q :=
  fold_left Qplus (omap Donation.amount ds) 0%Q.

Inductive stage :=
| Match (spec : gmap string cond)
| AddFields_totalDonation
| Sort (key : string) (descending : bool).

Fixpoint insert_sorted (le : PipeDoc → PipeDoc → bool) (x : PipeDoc) (l : list PipeDoc)
  : list PipeDoc :=
  match l with
  | [] => [x]
  | y :: r => if le x y then x :: l else y :: insert_sorted le x r
  end.

Definition sort_docs (le : PipeDoc → PipeDoc → bool) (l : list PipeDoc) : list PipeDoc :=
  foldr (insert_sorted le) [] l.

(** [$addFields: { totalDonation: { $sum: "$donations.amount" } }] on one
    document. *)
Definition add_totalDonation (d : PipeDoc) : PipeDoc :=
  {| doc := doc d; totalDonation := Some (sum_amounts (Donor.donations (doc d))) |}.

Definition run_stage (P : Platform) (s : stage) (docs : list PipeDoc) : list PipeDoc :=
  match s with
  | Match spec => List.filter (matches spec) docs
  | AddFields_totalDonation => map add_totalDonation docs
  | Sort key descending =>
      sort_docs (fun a b => if descending then bson_le P key b a else bson_le P key a b) docs
  end.

(** [Donor.aggregate(stages)]. *)
Definition stored (d : Donor.t) : PipeDoc := {| doc := d; totalDonation := None |}.

Definition aggregate (P : Platform) (stages : list stage) (donors : list Donor.t)
  : list PipeDoc :=
  fold_left (fun docs s => run_stage P s docs) stages (map stored donors).

(** The store runs a pipeline unless it rejects one of its stages. *)
Definition accepted (P : Platform) (s : stage) : bool :=
  match s with
  | Sort key _ => sort_key_ok P key
  | _ => true
  end.

(** [await Donor.aggregate(stages)]. *)
Definition Donor_aggregate (P : Platform) (stages : list stage) (donors : list Donor.t)
  : completion (list PipeDoc) :=
  if forallb (accepted P) stages then Normal (aggregate P stages donors)
  else Throw "MongoServerError".

Record DonorQuery := {
  q_name : option string;
  q_city : option string;
  minTotal : option string;
  maxTotal : option string;
  sortBy : option string;
  sortOrder : option string }.

(** [c ? f(x) : d] for a query parameter [x] tested for truthiness. *)
Definition if_truthy {A} (x : option string) (f : string → A) (d : A) : A :=
  match x with
  | Some s => if JsString.truthy s then f s else d
  | None => d
  end.

(** [if (x) filter[k] = new RegExp(x, 'i')]. *)
Definition add_regexp (P : Platform) (k : string) (x : option string)
    (filter : gmap string cond) : completion (gmap string cond) :=
  if_truthy x
    (fun s => re ← RegExp_i P s; mret (<[k := CRegExp re]> filter))
    (mret filter).

(** The object of the second [$match]. *)
Definition total_bounds (q : DonorQuery) : gmap string cond :=
  spread
    (if_truthy (minTotal q) (fun s => {["totalDonation" := CGte (Num.parseFloat s)]}) ∅)
    (if_truthy (maxTotal q) (fun s => {["totalDonation" := CLte (Num.parseFloat s)]}) ∅).

(** The [filter] object, built from the [name] and [city] parameters. *)
Definition build_filter (P : Platform) (q : DonorQuery) : completion (gmap string cond) :=
  filter ← add_regexp P "name" (q_name q) ∅;
  add_regexp P "city" (q_city q) filter.

(** [minTotal || maxTotal]. *)
Definition bounded (q : DonorQuery) : bool :=
  JsString.truthy_opt (minTotal q) || JsString.truthy_opt (maxTotal q).

Definition pipeline (P : Platform) (q : DonorQuery) : completion (list stage) :=
  filter ← build_filter P q;
  mret ([Match filter; AddFields_totalDonation]
        ++ (if bounded q then [Match (total_bounds q)] else [])
        ++ if_truthy (sortBy q)
             (fun k => [Sort k (bool_decide (sortOrder q = Some "desc"))]) []).

(** ** Sessions, stores and responses *)

(** What login records in the session. *)
Record SessionUser := {
  id : ObjectId;
  su_username : string;
  su_role : string }.

Definition user_json (u : SessionUser) : json :=
  JObj [("id", JId (id u)); ("username", JStr (su_username u)); ("role", JStr (su_role u))].

Module Session.
(** The properties of [req.session] the server touches: [user], which
    login writes and [requireLogin] reads, and [role], which register
    reads. [None] is [undefined]. *)
Record t := mk {
  user : option SessionUser;
  role : option string }.

(** The session a request has before any login, and after
    [req.session.destroy]. *)
Definition fresh : t := mk None None.
End Session.

Record World := {
  accounts : list Account.t;
  donors : list Donor.t }.

Inductive Body :=
| Json (j : json)
| File (path : list string).

Record Response := {
  status : nat;
  body : Body }.

(** [res.status(st).json(j)]; [res.json(j)] is [reply 200 j]. *)
Definition reply (st : nat) (j : json) : Response := {| status := st; body := Json j |}.

(** [{ success, message }]. *)
Definition message (success : bool) (m : string) : json :=
  JObj [("success", JBool success); ("message", JStr m)].

(** [{ success: true, donor }]. *)
Definition donor_reply (d : Donor.t) : Response :=
  reply 200 (JObj [("success", JBool true); ("donor", Donor.to_json d)]).

Definition Outcome : Type := World * Session.t * Response.

(** ** Middleware and route handlers *)

(** [requireLogin]: [Some] response when it answers itself, [None] when it
    calls [next()]. *)
Definition requireLogin (s : Session.t) : option Response :=
  match Session.user s with
  | None => Some (reply 401 (message false "Unauthorized. Please log in."))
  | Some _ => None
  end.

(** [POST /api/register]; [fresh] is the id given to the new document and
    [salt] the salt bcrypt draws. *)
Definition register (P : Platform) (w : World) (s : Session.t)
    (role username password : option string) (fresh : ObjectId) (salt : string) : Outcome :=
  if negb (bool_decide (Session.role s = Some "admin")) then
    (w, s, reply 403 (message false "Only admin can create accounts."))
  else
    match username, password, role with
    | Some u, Some p, Some r =>
        if negb (JsString.truthy u) || negb (JsString.truthy p) || negb (JsString.truthy r)
        then (w, s, reply 200 (message false "All fields are required."))
        else
          match Account.findOne (accounts w) u with
          | Some _ => (w, s, reply 200 (message false "Username already exists."))
          | None =>
              let hashed := bcrypt_hash P salt p in
              let account := Account.mk fresh r u hashed in
              ({| accounts := accounts w ++ [account]; donors := donors w |}, s,
               reply 200 (message true "Account created successfully."))
          end
    | _, _, _ => (w, s, reply 200 (message false "All fields are required."))
    end.

(** [{ id: account._id, username: account.username, role: account.role }]. *)
Definition session_user (account : Account.t) : SessionUser :=
  {| id := Account._id account;
     su_username := Account.username account;
     su_role := Account.role account |}.

(** [{ success: true, message: 'Login successful', user: req.session.user }]. *)
Definition login_reply (su : SessionUser) : Response :=
  reply 200 (JObj [("success", JBool true); ("message", JStr "Login successful");
                   ("user", user_json su)]).

(** The body of the [try] block of [POST /api/login]. *)
Definition login_try (w : World) (s : Session.t) (username password : option string)
  : completion Outcome :=
  u ← trim_method username;
  match Account.findOne (accounts w) u with
  | Some account =>
      if negb (bool_decide (Some (Account.password account) = password)) then
        mret (w, s, reply 401 (message false "Invalid credentials"))
      else
        let su := session_user account in
        mret (w, Session.mk (Some su) (Session.role s), login_reply su)
  | None => mret (w, s, reply 401 (message false "Invalid credentials"))
  end.

(** [POST /api/login]. *)
Definition login (w : World) (s : Session.t) (username password : option string) : Outcome :=
  match login_try w s username password with
  | Normal o => o
  | Throw _ => (w, s, reply 500 (message false "Server error"))
  end.

(** [POST /api/logout]. *)
Definition logout (w : World) (s : Session.t) : Outcome :=
  (w, Session.fresh, reply 200 (message true "Logged out")).

(** [GET /api/donors]. *)
Definition listDonors (P : Platform) (w : World) (s : Session.t) (q : DonorQuery) : Outcome :=
  match stages ← pipeline P q; Donor_aggregate P stages (donors w) with
  | Normal docs =>
      (w, s, reply 200 (JObj [("success", JBool true);
                              ("donors", JArr (map pipedoc_json docs))]))
  | Throw _ => (w, s, reply 500 (message false "Server error"))
  end.

Definition with_donors (w : World) (ds : list Donor.t) : World :=
  {| accounts := accounts w; donors := ds |}.

(** [DELETE /api/donors/:id]. *)
Definition deleteDonor (w : World) (s : Session.t) (donorId : ObjectId) : Outcome :=
  match Donor.findById (donors w) donorId with
  | None => (w, s, reply 404 (message false "Donor not found"))
  | Some _ =>
      (with_donors w (Donor.findByIdAndDelete (donors w) donorId), s,
       reply 200 (message true "Donor removed"))
  end.

(** [POST /api/donors/:id/donations]; [fresh] is the id the new
    subdocument gets. *)
Definition addDonation (w : World) (s : Session.t) (donorId : ObjectId)
    (amount : option Q) (date : option string) (fresh : ObjectId) : Outcome :=
  match Donor.findById (donors w) donorId with
  | None => (w, s, reply 404 (message false "Donor not found"))
  | Some donor =>
      let donor' := Donor.with_donations donor
                      (Donor.donations donor ++ [Donation.mk fresh amount date]) in
      (with_donors w (Donor.save donor' (donors w)), s, donor_reply donor')
  end.

(** [a ?? b]. *)
Definition nullish {A} (a : option A) (b : option A) : option A :=
  match a with
  | Some _ => a
  | None => b
  end.

(** [PUT /api/donors/:donorId/donations/:donationId]. *)
Definition updateDonation (w : World) (s : Session.t) (donorId donationId : ObjectId)
    (amount : option Q) (date : option string) : Outcome :=
  match Donor.findById (donors w) donorId with
  | None => (w, s, reply 404 (message false "Donor not found"))
  | Some donor =>
      match Donor.donations_id donor donationId with
      | None => (w, s, reply 404 (message false "Donation not found"))
      | Some donation =>
          let donation' :=
            Donation.mk (Donation._id donation)
                        (nullish amount (Donation.amount donation))
                        (nullish date (Donation.date donation)) in
          let donor' := Donor.with_donations donor
                          (Donor.assign donationId donation' (Donor.donations donor)) in
          (with_donors w (Donor.save donor' (donors w)), s, donor_reply donor')
      end
  end.

(** [DELETE /api/donors/:donorId/donations/:donationId]. *)
Definition removeDonation (w : World) (s : Session.t) (donorId : ObjectId)
    (donationId : string) : Outcome :=
  match Donor.findById (donors w) donorId with
  | None => (w, s, reply 404 (message false "Donor not found"))
  | Some donor =>
      let donor' := Donor.with_donations donor
                      (List.filter
                         (fun d => negb (bool_decide
                                           (ObjectId_toString (Donation._id d) = donationId)))
                         (Donor.donations donor)) in
      (with_donors w (Donor.save donor' (donors w)), s, donor_reply donor')
  end.

(** [GET /api/accounts]. *)
Definition listAccounts (w : World) (s : Session.t) : Outcome :=
  (w, s, reply 200 (JArr (map (fun a => JObj (Account.select_exclude "password"
                                                (Account.document a)))
                              (accounts w)))).

(** [PUT /api/accounts/:id]. *)
Definition updateAccount (w : World) (s : Session.t) (accountId : ObjectId)
    (username role : option string) : Outcome :=
  ({| accounts := Account.findByIdAndUpdate (accounts w) accountId username role;
      donors := donors w |}, s,
   reply 200 (message true "Account updated successfully.")).

(** [DELETE /api/accounts/:id]. *)
Definition deleteAccount (w : World) (s : Session.t) (accountId : ObjectId) : Outcome :=
  ({| accounts := Account.findByIdAndDelete (accounts w) accountId;
      donors := donors w |}, s,
   reply 200 (message true "Account deleted successfully.")).

(** ** The application: routes and mounted middleware *)

Inductive Request :=
| GET_root
| POST_register (role username password : option string) (fresh : ObjectId) (salt : string)
| POST_login (username password : option string)
| POST_logout
| GET_donors (q : DonorQuery)
| DELETE_donor (donorId : ObjectId)
| POST_donation (donorId : ObjectId) (amount : option Q) (date : option string)
                (fresh : ObjectId)
| PUT_donation (donorId donationId : ObjectId) (amount : option Q) (date : option string)
| DELETE_donation (donorId : ObjectId) (donationId : string)
| GET_accounts
| PUT_account (accountId : ObjectId) (username role : option string)
| DELETE_account (accountId : ObjectId).

(** A path segment: a literal, the value of a route parameter that is an
    id, or one read as a string. *)
Inductive segment :=
| Lit (s : string)
| Param (i : ObjectId)
| Raw (s : string).

#[global] Instance segment_eq_dec : EqDecision segment.
Proof. solve_decision. Defined.

Definition path_of (r : Request) : list segment :=
  match r with
  | GET_root => []
  | POST_register _ _ _ _ _ => [Lit "api"; Lit "register"]
  | POST_login _ _ => [Lit "api"; Lit "login"]
  | POST_logout => [Lit "api"; Lit "logout"]
  | GET_donors _ => [Lit "api"; Lit "donors"]
  | DELETE_donor i => [Lit "api"; Lit "donors"; Param i]
  | POST_donation i _ _ _ => [Lit "api"; Lit "donors"; Param i; Lit "donations"]
  | PUT_donation i j _ _ => [Lit "api"; Lit "donors"; Param i; Lit "donations"; Param j]
  | DELETE_donation i j => [Lit "api"; Lit "donors"; Param i; Lit "donations"; Raw j]
  | GET_accounts => [Lit "api"; Lit "accounts"]
  | PUT_account i _ _ => [Lit "api"; Lit "accounts"; Param i]
  | DELETE_account i => [Lit "api"; Lit "accounts"; Param i]
  end.

(** The two [app.use(path, requireLogin)]: the middleware runs for every
    request whose path starts with the mount path. The routes declared
    before them (register, login, logout) have no such path. *)
Definition requireLogin_mounts : list (list segment) :=
  [[Lit "api"; Lit "donors"]; [Lit "api"; Lit "donations"]].

Definition mounted (mount path : list segment) : bool :=
  bool_decide (mount `prefix_of` path).

Definition guarded (r : Request) : bool :=
  existsb (fun m => mounted m (path_of r)) requireLogin_mounts.

(** The route handler of a request. *)
Definition route (P : Platform) (w : World) (s : Session.t) (r : Request) : Outcome :=
  match r with
  | GET_root => (w, s, {| status := 200; body := File ["public"; "donation.html"] |})
  | POST_register role username password fresh salt =>
      register P w s role username password fresh salt
  | POST_login username password => login w s username password
  | POST_logout => logout w s
  | GET_donors q => listDonors P w s q
  | DELETE_donor i => deleteDonor w s i
  | POST_donation i amount date fresh => addDonation w s i amount date fresh
  | PUT_donation i j amount date => updateDonation w s i j amount date
  | DELETE_donation i j => removeDonation w s i j
  | GET_accounts => listAccounts w s
  | PUT_account i username role => updateAccount w s i username role
  | DELETE_account i => deleteAccount w s i
  end.

(** Serving a request: the mounted middleware first, the route handler
    when the middleware lets the request through. *)
Definition handle (P : Platform) (w : World) (s : Session.t) (r : Request) : Outcome :=
  if guarded r then
    match requireLogin s with
    | Some resp => (w, s, resp)
    | None => route P w s r
    end
  else route P w s r.

(** The sessions and stores the server can be in: it starts from some
    stores with a fresh session and serves requests one after another. *)
Inductive reachable (P : Platform) (w0 : World) : World → Session.t → Prop :=
| reach_start : reachable P w0 w0 Session.fresh
| reach_step w s r w' s' resp :
    reachable P w0 w s →
    handle P w s r = (w', s', resp) →
    reachable P w0 w' s'.

(** ** Shapes of response bodies *)

Fixpoint lookup_prop (k : string) (ps : list (string * json)) : option json :=
  match ps with
  | [] => None
  | (k', v) :: r => if bool_decide (k' = k) then Some v else lookup_prop k r
  end.

(** [k] is the key of a property somewhere in [j]. *)
Fixpoint has_key (k : string) (j : json) : bool :=
  match j with
  | JArr items => existsb (has_key k) items
  | JObj props =>
      existsb (fun kv => bool_decide (kv.1 = k) || has_key k kv.2) props
  | _ => false
  end.

Definition body_has_key (k : string) (b : Body) : bool :=
  match b with
  | Json j => has_key k j
  | File _ => false
  end.

Definition is_bool (o : option json) : bool :=
  match o with
  | Some (JBool _) => true
  | _ => false
  end.

(** An object with a boolean [success] and at least one of the properties
    [keys]. *)
Definition enveloped_with (keys : list string) (b : Body) : bool :=
  match b with
  | Json (JObj ps) =>
      is_bool (lookup_prop "success" ps)
      && existsb (fun k => bool_decide (is_Some (lookup_prop k ps))) keys
  | _ => false
  end.


(** ** Data the examples run on *)

(** A platform for the examples; none of them filters by name or city,
    sorts, or depends on the digest. *)
Definition sample_platform : Platform := {|
  bcrypt_digest := fun _ _ _ => "0123456789abcdefghijklmnopqrstu";
  regexp_i := fun _ => None;
  bson_le := fun _ _ _ => true;
  sort_key_ok := fun k => negb (JsString.starts_with "$" k) |}.

Definition ann : Donor.t :=
  Donor.mk 10%N "Ann" "1 rue de la Paix" "Lyon"
    [Donation.mk 100%N (Some 50%Q) (Some "2024-01-01");
     Donation.mk 101%N (Some 30%Q) (Some "2024-02-01")].

Definition bob : Donor.t :=
  Donor.mk 11%N "Bob" "2 High Street" "Leeds" [Donation.mk 110%N (Some 500%Q) None].

(** An account whose stored password is the plain text ["pw"]. *)
Definition root_account : Account.t := Account.mk 1%N "admin" "root" "pw".

Definition sample_world : World :=
  {| accounts := [root_account]; donors := [ann; bob] |}.

(** [GET /api/donors?minTotal=100&maxTotal=600]. *)
Definition between_100_and_600 : DonorQuery :=
  {| q_name := None; q_city := None; minTotal := Some "100"; maxTotal := Some "600";
     sortBy := None; sortOrder := None |}.

(** [GET /api/donors?minTotal=abc&maxTotal=600]. *)
Definition from_abc_to_600 : DonorQuery :=
  {| q_name := None; q_city := None; minTotal := Some "abc"; maxTotal := Some "600";
     sortBy := None; sortOrder := None |}.

(** [GET /api/donors?minTotal=abc]. *)
Definition from_abc : DonorQuery :=
  {| q_name := None; q_city := None; minTotal := Some "abc"; maxTotal := None;
     sortBy := None; sortOrder := None |}.

(** [GET /api/donors?minTotal=100]. *)
Definition from_100 : DonorQuery :=
  {| q_name := None; q_city := None; minTotal := Some "100"; maxTotal := None;
     sortBy := None; sortOrder := None |}.

(** The session after [root] has logged in. *)
Definition root_session : Session.t :=
  Session.mk (Some {| id := 1%N; su_username := "root"; su_role := "admin" |}) None.

(** A session whose own [role] property is ["admin"]. *)
Definition role_admin_session : Session.t := Session.mk None (Some "admin").

(** The donors other than the one of id [X]. *)
Definition others (X : ObjectId) (l : list Donor.t) : list Donor.t :=
  List.filter (fun d => negb (bool_decide (Donor._id d = X))) l.

(** The donations of other ids than [X]. *)
Definition other_donations (X : ObjectId) (l : list Donation.t) : list Donation.t :=
  List.filter (fun d => negb (bool_decide (Donation._id d = X))) l.

(** The five donor and donation endpoints. *)
Definition donor_endpoint (r : Request) : bool :=
  match r with
  | GET_donors _ | DELETE_donor _ | POST_donation _ _ _ _
  | PUT_donation _ _ _ _ | DELETE_donation _ _ => true
  | _ => false
  end.

(** The three account-management endpoints. *)
Definition account_endpoint (r : Request) : bool :=
  match r with
  | GET_accounts | PUT_account _ _ _ | DELETE_account _ => true
  | _ => false
  end.

(** ** Observations on the stores *)

Definition donor_ids (w : World) : list ObjectId := map Donor._id (donors w).

Definition account_ids (w : World) : list ObjectId := map Account._id (accounts w).

Definition usernames (w : World) : list string := map Account.username (accounts w).

(** The accounts other than the one of id [X]. *)
Definition other_accounts (X : ObjectId) (l : list Account.t) : list Account.t :=
  List.filter (fun a => negb (bool_decide (Account._id a = X))) l.

(** The donations whose id, written out, is not the text [j]. *)
Definition donations_but (j : string) (l : list Donation.t) : list Donation.t :=
  List.filter (fun d => negb (bool_decide (ObjectId_toString (Donation._id d) = j))) l.

(** The requests that only read the stores. *)
Definition read_only (r : Request) : bool :=
  match r with
  | GET_root | POST_login _ _ | POST_logout | GET_donors _ | GET_accounts => true
  | _ => false
  end.

(** The requests that may write the session. *)
Definition session_route (r : Request) : bool :=
  match r with
  | POST_login _ _ | POST_logout => true
  | _ => false
  end.

(** [s] does not begin with white space. *)
Definition clean_start (s : string) : Prop :=
  match s with
  | String c _ => JsString.is_white c = false
  | EmptyString => True
  end.

(** ** Observations on queries *)

(** A query parameter that is the empty string, read as absent. *)
Definition blank_as_absent (x : option string) : option string :=
  match x with
  | Some s => if JsString.truthy s then x else None
  | None => None
  end.

Definition without_blanks (q : DonorQuery) : DonorQuery :=
  {| q_name := blank_as_absent (q_name q);
     q_city := blank_as_absent (q_city q);
     minTotal := blank_as_absent (minTotal q);
     maxTotal := blank_as_absent (maxTotal q);
     sortBy := blank_as_absent (sortBy q);
     sortOrder := sortOrder q |}.

Definition with_sort (q : DonorQuery) (by_ order : option string) : DonorQuery :=
  {| q_name := q_name q; q_city := q_city q;
     minTotal := minTotal q; maxTotal := maxTotal q;
     sortBy := by_; sortOrder := order |}.

(** The query without any parameter. *)
Definition no_parameters : DonorQuery :=
  {| q_name := None; q_city := None; minTotal := None; maxTotal := None;
     sortBy := None; sortOrder := None |}.

(** Each document is in the order [le] with the one that follows it. *)
Fixpoint ordered (le : PipeDoc → PipeDoc → bool) (l : list PipeDoc) : bool :=
  match l with
  | x :: (y :: _) as r => le x y && ordered le r
  | _ => true
  end.

(** The order in which [$sort] leaves the documents of a query. *)
Definition sort_order (P : Platform) (key : string) (descending : bool)
  : PipeDoc → PipeDoc → bool :=
  fun a b => if descending then bson_le P key b a else bson_le P key a b.

(** The test of a name or city parameter on a field: no test when the
    parameter is absent or empty. *)
Definition field_test (P : Platform) (x : option string) (v : string) : bool :=
  if_truthy x (fun s => match regexp_i P s with Some re => re v | None => false end) true.

(** A parameter that is given and is not a regular expression. *)
Definition bad_pattern (P : Platform) (x : option string) : bool :=
  if_truthy x (fun s => match regexp_i P s with Some _ => false | None => true end) false.

(** A [sortBy] that is given and that the store does not take. *)
Definition bad_sort_key (P : Platform) (q : DonorQuery) : bool :=
  if_truthy (sortBy q) (fun k => negb (sort_key_ok P k)) false.

(** What makes the [try] block of [GET /api/donors] throw. *)
Definition refused (P : Platform) (q : DonorQuery) : bool :=
  bad_pattern P (q_name q) || bad_pattern P (q_city q) || bad_sort_key P q.

(** A platform whose documents are ordered by their total, whatever the
    key, and whose RegExp engine knows the pattern [ann] only, which it
    matches against the lower-case name [ann]. *)
Definition by_total_platform : Platform := {|
  bcrypt_digest := fun _ _ _ => "0123456789abcdefghijklmnopqrstu";
  regexp_i := fun p => if bool_decide (p = "ann")
                       then Some (fun s => bool_decide (s = "Ann" ∨ s = "ann"))
                       else None;
  bson_le := fun _ a b =>
    match totalDonation a, totalDonation b with
    | Some x, Some y => Qle_bool x y
    | None, _ => true
    | Some _, None => false
    end;
  sort_key_ok := fun k => negb (JsString.starts_with "$" k) |}.

(** ** Requests as the server receives them *)

(** A route parameter or a body field, by what the cast to its schema
    type makes of it: a value, or a CastError. *)
Inductive cast (A : Type) :=
| Cast (a : A)
| CastError.
Arguments Cast {A} a.
Arguments CastError {A}.

Inductive Received :=
| R_root
| R_register (role username password : option string) (fresh : ObjectId) (salt : string)
| R_login (username password : option string)
| R_logout
| R_donors (q : DonorQuery)
| R_delete_donor (donorId : cast ObjectId)
| R_add_donation (donorId : cast ObjectId) (amount : cast (option Q)) (date : option string)
                 (fresh : ObjectId)
| R_update_donation (donorId donationId : cast ObjectId) (amount : cast (option Q))
                    (date : option string)
| R_remove_donation (donorId : cast ObjectId) (donationId : string)
| R_accounts
| R_update_account (accountId : cast ObjectId) (username role : option string)
| R_delete_account (accountId : cast ObjectId).

(** What becomes of a request: a response is sent, or a promise is
    rejected outside any [try] and no response is sent. *)
Inductive Served :=
| Sent (o : Outcome)
| Unanswered (w : World) (s : Session.t).

(** The requests whose path is under a mount of [requireLogin]. *)
Definition received_guarded (r : Received) : bool :=
  match r with
  | R_donors _ | R_delete_donor _ | R_add_donation _ _ _ _
  | R_update_donation _ _ _ _ | R_remove_donation _ _ => true
  | _ => false
  end.

(** The route handlers, with the casts their store calls make. A cast
    that fails rejects the call: the [catch] of [DELETE /api/donors/:id]
    answers 500, the handlers without [try] answer nothing.
    [donations.id] catches the CastError itself and finds nothing. An
    amount is cast when the donor is saved, after the lookups. *)
Definition serve_route (P : Platform) (w : World) (s : Session.t) (r : Received) : Served :=
  match r with
  | R_root => Sent (route P w s GET_root)
  | R_register role username password fresh salt =>
      Sent (register P w s role username password fresh salt)
  | R_login username password => Sent (login w s username password)
  | R_logout => Sent (logout w s)
  | R_donors q => Sent (listDonors P w s q)
  | R_delete_donor (Cast i) => Sent (deleteDonor w s i)
  | R_delete_donor CastError => Sent (w, s, reply 500 (message false "Server error"))
  | R_add_donation (Cast i) (Cast a) date fresh => Sent (addDonation w s i a date fresh)
  | R_add_donation (Cast i) CastError date fresh =>
      match Donor.findById (donors w) i with
      | None => Sent (w, s, reply 404 (message false "Donor not found"))
      | Some _ => Unanswered w s
      end
  | R_add_donation CastError _ _ _ => Unanswered w s
  | R_update_donation (Cast i) j amount date =>
      match Donor.findById (donors w) i with
      | None => Sent (w, s, reply 404 (message false "Donor not found"))
      | Some donor =>
          match j with
          | CastError => Sent (w, s, reply 404 (message false "Donation not found"))
          | Cast j =>
              match Donor.donations_id donor j, amount with
              | None, _ => Sent (w, s, reply 404 (message false "Donation not found"))
              | Some _, Cast a => Sent (updateDonation w s i j a date)
              | Some _, CastError => Unanswered w s
              end
          end
      end
  | R_update_donation CastError _ _ _ => Unanswered w s
  | R_remove_donation (Cast i) j => Sent (removeDonation w s i j)
  | R_remove_donation CastError _ => Unanswered w s
  | R_accounts => Sent (listAccounts w s)
  | R_update_account (Cast i) username role => Sent (updateAccount w s i username role)
  | R_update_account CastError _ _ => Unanswered w s
  | R_delete_account (Cast i) => Sent (deleteAccount w s i)
  | R_delete_account CastError => Unanswered w s
  end.

(** Serving a request as received: [requireLogin] first, on the paths it
    is mounted on, then the route handler. *)
Definition serve (P : Platform) (w : World) (s : Session.t) (r : Received) : Served :=
  if received_guarded r then
    match requireLogin s with
    | Some resp => Sent (w, s, resp)
    | None => serve_route P w s r
    end
  else serve_route P w s r.

(** A request all of whose casts succeed. *)
Definition well_typed (r : Request) : Received :=
  match r with
  | GET_root => R_root
  | POST_register role username password fresh salt =>
      R_register role username password fresh salt
  | POST_login username password => R_login username password
  | POST_logout => R_logout
  | GET_donors q => R_donors q
  | DELETE_donor i => R_delete_donor (Cast i)
  | POST_donation i amount date fresh => R_add_donation (Cast i) (Cast amount) date fresh
  | PUT_donation i j amount date => R_update_donation (Cast i) (Cast j) (Cast amount) date
  | DELETE_donation i j => R_remove_donation (Cast i) j
  | GET_accounts => R_accounts
  | PUT_account i username role => R_update_account (Cast i) username role
  | DELETE_account i => R_delete_account (Cast i)
  end.


(** A store holding an account as register writes them: the password is
    the bcrypt hash of ["secret"]. *)
Definition hashed_world : World :=
  {| accounts := [Account.mk 2%N "staff" "carol"
                    (bcrypt_hash sample_platform "abcdefghijklmnopqrstuv" "secret")];
     donors := [] |}.

(** * Properties *)

(** ** The donor collection *)

Section DonorStore.
Implicit Types (l : list Donor.t) (d : Donor.t) (X : ObjectId).

Lemma findById_id l X d : Donor.findById l X = Some d → Donor._id d = X.
Proof.
  unfold Donor.findById. intros H. apply find_some in H as [_ H].
  by apply bool_decide_eq_true in H.
Qed.

Lemma others_save l d : others (Donor._id d) (Donor.save d l) = others (Donor._id d) l.
Proof.
  induction l as [|x l IH]; [done|]. simpl.
  destruct (bool_decide_reflect (Donor._id x = Donor._id d)) as [E|N].
  - simpl. rewrite !bool_decide_eq_true_2 by done. done.
  - simpl. rewrite bool_decide_eq_false_2 by done. simpl. by rewrite IH.
Qed.

Lemma others_findByIdAndDelete l X :
  others X (Donor.findByIdAndDelete l X) = others X l.
Proof.
  induction l as [|x l IH]; [done|]. simpl.
  destruct (bool_decide_reflect (Donor._id x = X)) as [E|N]; simpl.
  - done.
  - rewrite bool_decide_eq_false_2 by done. simpl. by rewrite IH.
Qed.

Lemma findById_save l X d d' :
  Donor.findById l X = Some d → Donor._id d' = X →
  Donor.findById (Donor.save d' l) X = Some d'.
Proof.
  intros H E. induction l as [|x l IH]; [done|]. simpl in *. rewrite E.
  destruct (bool_decide_reflect (Donor._id x = X)) as [Ex|N]; simpl.
  - by rewrite bool_decide_eq_true_2.
  - rewrite bool_decide_eq_false_2 by done. auto.
Qed.

End DonorStore.

Section Subdocuments.
Implicit Types (l : list Donation.t) (x : Donation.t) (X : ObjectId).

Lemma other_donations_assign l X x' :
  Donation._id x' = X →
  other_donations X (Donor.assign X x' l) = other_donations X l.
Proof.
  intros E. induction l as [|x l IH]; [done|]. simpl.
  destruct (bool_decide_reflect (Donation._id x = X)) as [Ex|N]; simpl.
  - rewrite E. by rewrite bool_decide_eq_true_2.
  - rewrite bool_decide_eq_false_2 by done. simpl. by rewrite IH.
Qed.

Lemma find_assign l X x x' :
  List.find (fun y => bool_decide (Donation._id y = X)) l = Some x →
  Donation._id x' = X →
  List.find (fun y => bool_decide (Donation._id y = X)) (Donor.assign X x' l) = Some x'.
Proof.
  intros H E. induction l as [|y l IH]; [done|]. simpl in *.
  destruct (bool_decide_reflect (Donation._id y = X)) as [Ey|N]; simpl.
  - by rewrite bool_decide_eq_true_2.
  - rewrite bool_decide_eq_false_2 by done. auto.
Qed.

Lemma assign_split l X x x' :
  List.find (fun y => bool_decide (Donation._id y = X)) l = Some x →
  ∃ before after, l = before ++ x :: after
                  ∧ Donor.assign X x' l = before ++ x' :: after.
Proof.
  induction l as [|y l IH]; [done|]. simpl.
  destruct (bool_decide_reflect (Donation._id y = X)) as [Ey|N].
  - intros [= ->]. by exists [], l.
  - intros H. destruct (IH H) as (before & after & -> & ->).
    by exists (y :: before), after.
Qed.

Lemma find_donation_id l X x :
  List.find (fun y => bool_decide (Donation._id y = X)) l = Some x → Donation._id x = X.
Proof.
  intros H. apply find_some in H as [_ H]. by apply bool_decide_eq_true in H.
Qed.
End Subdocuments.

(** ** Which requests meet [requireLogin] *)

Lemma guarded_donor_endpoint r : guarded r = donor_endpoint r.
Proof. by destruct r. Qed.

Lemma handle_unguarded P w s r : donor_endpoint r = false → handle P w s r = route P w s r.
Proof. intros H. unfold handle. by rewrite guarded_donor_endpoint, H. Qed.

Lemma handle_logged_in P w s r u :
  Session.user s = Some u → handle P w s r = route P w s r.
Proof.
  intros H. unfold handle, requireLogin. rewrite H. by destruct (guarded r).
Qed.

Lemma handle_cases P w s r :
  handle P w s r = (w, s, reply 401 (message false "Unauthorized. Please log in."))
  ∨ handle P w s r = route P w s r.
Proof.
  unfold handle, requireLogin. destruct (guarded r), (Session.user s); auto.
Qed.

(** ** Donor mutations *)

Lemma others_save_at l d X :
  Donor._id d = X → others X (Donor.save d l) = others X l.
Proof. intros <-. apply others_save. Qed.

Section Frame.
Variables (w : World) (s : Session.t) (X : ObjectId).

Lemma deleteDonor_others : others X (donors (deleteDonor w s X).1.1) = others X (donors w).
Proof.
  unfold deleteDonor. destruct (Donor.findById (donors w) X); [|done].
  apply others_findByIdAndDelete.
Qed.

Lemma addDonation_others amount date fresh :
  others X (donors (addDonation w s X amount date fresh).1.1) = others X (donors w).
Proof.
  unfold addDonation. destruct (Donor.findById (donors w) X) as [d|] eqn:E; [|done].
  apply others_save_at. simpl. by apply findById_id in E.
Qed.

Lemma updateDonation_others j amount date :
  others X (donors (updateDonation w s X j amount date).1.1) = others X (donors w).
Proof.
  unfold updateDonation. destruct (Donor.findById (donors w) X) as [d|] eqn:E; [|done].
  destruct (Donor.donations_id d j); [|done].
  apply others_save_at. simpl. by apply findById_id in E.
Qed.

Lemma removeDonation_others j :
  others X (donors (removeDonation w s X j).1.1) = others X (donors w).
Proof.
  unfold removeDonation. destruct (Donor.findById (donors w) X) as [d|] eqn:E; [|done].
  apply others_save_at. simpl. by apply findById_id in E.
Qed.
End Frame.

(** C10. Each of the four donor mutations, served for the donor of id [X],
    leaves the donors of every other id as they were: the same documents,
    donations included, in the same order. *)
Theorem mutations_leave_other_donors (P : Platform) (w : World) (s : Session.t) (X : ObjectId) :
  others X (donors (handle P w s (DELETE_donor X)).1.1) = others X (donors w)
  ∧ (∀ amount date fresh,
       others X (donors (handle P w s (POST_donation X amount date fresh)).1.1)
       = others X (donors w))
  ∧ (∀ j amount date,
       others X (donors (handle P w s (PUT_donation X j amount date)).1.1)
       = others X (donors w))
  ∧ (∀ j, others X (donors (handle P w s (DELETE_donation X j)).1.1) = others X (donors w)).
Proof.
  split; [|split; [|split]]; intros.
  all: match goal with
       | |- context [handle ?p ?w0 ?s0 ?r] =>
           destruct (handle_cases p w0 s0 r) as [->| ->]; [done|]
       end; simpl.
  - apply deleteDonor_others.
  - apply addDonation_others.
  - apply updateDonation_others.
  - apply removeDonation_others.
Qed.

(** C6. [updateDonation] answers 404 exactly when the donor, or the
    donation in it, is missing; otherwise the stored donor keeps its id,
    name, address and city, the donation keeps its id and every field the
    request leaves out and takes every field it supplies, and the donor's
    list of donations is the old one with that single entry replaced. *)
Theorem updateDonation_partial_update (w : World) (s : Session.t)
    (donorId donationId : ObjectId) (amount : option Q) (date : option string) :
  (status (updateDonation w s donorId donationId amount date).2 = 404
   ↔ Donor.findById (donors w) donorId = None
     ∨ ∃ d, Donor.findById (donors w) donorId = Some d
            ∧ Donor.donations_id d donationId = None)
  ∧ ∀ donor donation,
      Donor.findById (donors w) donorId = Some donor →
      Donor.donations_id donor donationId = Some donation →
      ∃ donor' donation',
        updateDonation w s donorId donationId amount date
        = (with_donors w (Donor.save donor' (donors w)), s, donor_reply donor')
        ∧ Donor.findById (Donor.save donor' (donors w)) donorId = Some donor'
        ∧ Donor._id donor' = Donor._id donor
        ∧ Donor.name donor' = Donor.name donor
        ∧ Donor.address donor' = Donor.address donor
        ∧ Donor.city donor' = Donor.city donor
        ∧ Donor.donations_id donor' donationId = Some donation'
        ∧ Donation._id donation' = donationId
        ∧ (amount = None → Donation.amount donation' = Donation.amount donation)
        ∧ (date = None → Donation.date donation' = Donation.date donation)
        ∧ (∀ a, amount = Some a → Donation.amount donation' = Some a)
        ∧ (∀ t, date = Some t → Donation.date donation' = Some t)
        ∧ other_donations donationId (Donor.donations donor')
          = other_donations donationId (Donor.donations donor)
        ∧ (∃ before after,
             Donor.donations donor = before ++ donation :: after
             ∧ Donor.donations donor' = before ++ donation' :: after).
Proof.
  split.
  - unfold updateDonation.
    destruct (Donor.findById (donors w) donorId) as [d|] eqn:E.
    + destruct (Donor.donations_id d donationId) as [x|] eqn:F; simpl.
      * split; [done|]. intros [?|(d' & ? & ?)]; [done|]. congruence.
      * split; [|done]. intros _. right. by exists d.
    + simpl. split; [|done]. by left.
  - intros donor donation E F. unfold updateDonation. rewrite E, F.
    set (donation' := Donation.mk (Donation._id donation)
                        (nullish amount (Donation.amount donation))
                        (nullish date (Donation.date donation))).
    exists (Donor.with_donations donor
              (Donor.assign donationId donation' (Donor.donations donor))), donation'.
    split; [reflexivity|].
    pose proof (find_donation_id _ _ _ F) as Hid.
    pose proof (findById_id _ _ _ E) as Hd.
    split_and!; simpl; try done.
    + by apply findById_save with donor.
    + unfold Donor.donations_id. simpl. by apply (find_assign _ _ donation).
    + by intros ->.
    + by intros ->.
    + by intros a ->.
    + by intros t ->.
    + by apply other_donations_assign.
    + by apply assign_split.
Qed.

(** C6, on the sample data: the first donation of Ann gets a new amount and
    keeps its date. *)
Lemma updateDonation_partial_update_witness :
  ∃ donor' donation',
    updateDonation sample_world Session.fresh 10%N 100%N (Some 75%Q) None
    = (with_donors sample_world (Donor.save donor' (donors sample_world)),
       Session.fresh, donor_reply donor')
    ∧ Donation.amount donation' = Some 75%Q
    ∧ Donation.date donation' = Some "2024-01-01"
    ∧ other_donations 100%N (Donor.donations donor') = other_donations 100%N (Donor.donations ann).
Proof.
  destruct (updateDonation_partial_update sample_world Session.fresh 10%N 100%N
              (Some 75%Q) None) as [_ H].
  destruct (H ann (Donation.mk 100%N (Some 50%Q) (Some "2024-01-01"))
              ltac:(reflexivity) ltac:(reflexivity))
    as (donor' & donation' & H1 & _ & _ & _ & _ & _ & _ & _ & _ & H10 & H11 & _ & H13 & _).
  exists donor', donation'. split; [exact H1|]. split; [by apply H11|].
  split; [by apply H10|exact H13].
Defined.

(** ** Login *)

(** C9. A login request without a username is answered 500 with the
    message 'Server error', and neither the session nor the stores
    change. *)
Theorem login_without_username (P : Platform) (w : World) (s : Session.t)
    (password : option string) :
  handle P w s (POST_login None password) = (w, s, reply 500 (message false "Server error"))
  ∧ login_try w s None password = Throw "TypeError".
Proof. done. Qed.

(** ** The session guard *)

(** C3, as stated, fails: the list of accounts is served to a request that
    has no session user. *)
Lemma accounts_served_without_session :
  Session.user Session.fresh = None
  ∧ account_endpoint GET_accounts = true
  ∧ handle sample_platform sample_world Session.fresh GET_accounts
    = (sample_world, Session.fresh,
       reply 200 (JArr [JObj [("_id", JId 1%N); ("role", JStr "admin");
                              ("username", JStr "root")]])).
Proof. done. Qed.

(** C3, amended. A request to one of the five donor and donation endpoints
    that carries no session user is answered 401 by [requireLogin], and the
    route handler does not run: stores and session are as before. *)
Theorem donor_routes_require_session (P : Platform) (w : World) (s : Session.t) (r : Request) :
  donor_endpoint r = true →
  Session.user s = None →
  handle P w s r = (w, s, reply 401 (message false "Unauthorized. Please log in.")).
Proof.
  intros Hr Hs. unfold handle, requireLogin. by rewrite guarded_donor_endpoint, Hr, Hs.
Qed.

Lemma donor_routes_require_session_witness :
  handle sample_platform sample_world Session.fresh (DELETE_donor 10%N)
  = (sample_world, Session.fresh, reply 401 (message false "Unauthorized. Please log in.")).
Proof.
  apply (donor_routes_require_session sample_platform sample_world Session.fresh
           (DELETE_donor 10%N)); reflexivity.
Defined.

(** The account-management routes are not behind the guard. *)
Lemma account_routes_unguarded P w s r :
  account_endpoint r = true → handle P w s r = route P w s r.
Proof. intros H. apply handle_unguarded. by destruct r. Qed.

(** ** The outcomes of the donor list *)

Lemma listDonors_cases P w s q :
  listDonors P w s q = (w, s, reply 500 (message false "Server error"))
  ∨ ∃ docs, listDonors P w s q
            = (w, s, reply 200 (JObj [("success", JBool true);
                                      ("donors", JArr (map pipedoc_json docs))])).
Proof.
  unfold listDonors.
  destruct (stages ← pipeline P q; Donor_aggregate P stages (donors w)) as [docs|];
    [right; by exists docs|by left].
Qed.

(** ** The outcomes of login *)

Lemma login_cases w s username password :
  (∃ st m, login w s username password = (w, s, reply st (message false m)) ∧ st ≠ 200)
  ∨ (∃ a u, username = Some u
            ∧ Account.findOne (accounts w) (JsString.trim u) = Some a
            ∧ password = Some (Account.password a)
            ∧ login w s username password
              = (w, Session.mk (Some (session_user a)) (Session.role s),
                 login_reply (session_user a))).
Proof.
  unfold login, login_try. destruct username as [u|]; simpl; [|left; by eexists _, _].
  destruct (Account.findOne (accounts w) (JsString.trim u)) as [a|] eqn:E;
    [|left; by eexists _, _].
  case_bool_decide as Hp; simpl; [|left; by eexists _, _].
  right. by exists a, u.
Qed.

(** ** Response bodies *)


Lemma route_enveloped P w s r :
  r ≠ GET_root → r ≠ GET_accounts →
  enveloped_with ["message"; "donors"; "donor"; "user"] (body (route P w s r).2) = true.
Proof.
  intros Hapi Hr. destruct r; try done; simpl.
  - unfold register. repeat case_match; done.
  - destruct (login_cases w s username password)
      as [(st & m & -> & _)|(a & u & _ & _ & _ & ->)]; done.
  - destruct (listDonors_cases P w s q) as [->|[docs ->]]; done.
  - unfold deleteDonor. by case_match.
  - unfold addDonation. by case_match.
  - unfold updateDonation. repeat case_match; done.
  - unfold removeDonation. by case_match.
Qed.

(** Every endpoint other than [GET /] and [GET /api/accounts] answers a
    request whose casts succeed with an object that has a boolean
    [success] and a [message] or one of the payloads [donors], [donor] and
    [user]. *)
Theorem api_responses_enveloped (P : Platform) (w : World) (s : Session.t) (r : Request) :
  r ≠ GET_root →
  r ≠ GET_accounts →
  enveloped_with ["message"; "donors"; "donor"; "user"] (body (handle P w s r).2) = true.
Proof.
  intros Hapi Hr. destruct (handle_cases P w s r) as [->| ->]; [done|].
  by apply route_enveloped.
Qed.

Lemma api_responses_enveloped_witness :
  enveloped_with ["message"; "donors"; "donor"; "user"]
    (body (handle sample_platform sample_world Session.fresh
             (POST_login (Some "root") (Some "pw"))).2) = true.
Proof.
  apply (api_responses_enveloped sample_platform sample_world Session.fresh
           (POST_login (Some "root") (Some "pw"))); discriminate.
Defined.

(** ** No password in a response *)

Lemma donation_no_password (x : Donation.t) : has_key "password" (Donation.to_json x) = false.
Proof. by destruct x as [i [a|] [t|]]. Qed.

Lemma donations_no_password (l : list Donation.t) :
  existsb (has_key "password") (map Donation.to_json l) = false.
Proof.
  induction l as [|x l IH]; [done|].
  cbn [map existsb]. by rewrite donation_no_password, IH.
Qed.

Lemma document_no_password (d : Donor.t) :
  existsb (fun kv => bool_decide (kv.1 = "password") || has_key "password" kv.2)
          (Donor.document d) = false.
Proof.
  unfold Donor.document. cbn [existsb fst snd has_key].
  rewrite donations_no_password. done.
Qed.

Lemma donor_no_password (d : Donor.t) : has_key "password" (Donor.to_json d) = false.
Proof. apply document_no_password. Qed.

Lemma pipedoc_no_password (d : PipeDoc) : has_key "password" (pipedoc_json d) = false.
Proof.
  unfold pipedoc_json. cbn [has_key]. rewrite existsb_app, document_no_password.
  by destruct (totalDonation d).
Qed.

Lemma pipedocs_no_password (l : list PipeDoc) :
  existsb (has_key "password") (map pipedoc_json l) = false.
Proof.
  induction l as [|x l IH]; [done|].
  cbn [map existsb]. by rewrite pipedoc_no_password, IH.
Qed.

Lemma donor_reply_no_password (d : Donor.t) :
  body_has_key "password" (body (donor_reply d)) = false.
Proof.
  unfold donor_reply. cbn [body reply body_has_key has_key existsb fst snd].
  rewrite donor_no_password. done.
Qed.

(** What [select('-password')] leaves of an account. *)
Lemma select_exclude_password (a : Account.t) :
  Account.select_exclude "password" (Account.document a)
  = [("_id", JId (Account._id a)); ("role", JStr (Account.role a));
     ("username", JStr (Account.username a))].
Proof. done. Qed.

Lemma accounts_no_password (l : list Account.t) :
  existsb (has_key "password")
    (map (fun a => JObj (Account.select_exclude "password" (Account.document a))) l) = false.
Proof.
  induction l as [|a l IH]; [done|].
  cbn [map existsb]. by rewrite IH, select_exclude_password.
Qed.

Lemma route_no_password P w s r : body_has_key "password" (body (route P w s r).2) = false.
Proof.
  destruct r; simpl; try done.
  - unfold register. repeat case_match; done.
  - destruct (login_cases w s username password)
      as [(st & m & -> & _)|(a & u & _ & _ & _ & ->)]; done.
  - destruct (listDonors_cases P w s q) as [->|[docs ->]]; [done|].
    cbn [snd body reply body_has_key has_key existsb fst].
    by rewrite pipedocs_no_password.
  - unfold deleteDonor. by case_match.
  - unfold addDonation. case_match; [|done]. apply donor_reply_no_password.
  - unfold updateDonation. repeat case_match; try done; apply donor_reply_no_password.
  - unfold removeDonation. case_match; [|done]. apply donor_reply_no_password.
  - apply accounts_no_password.
Qed.

(** C7. No response carries a [password] property, at any depth, whatever
    the stores, the session and the request; [listAccounts] returns every
    account, each as its [_id], [role] and [username]; and when login
    answers 200 the [user] it returns is made of the [id], [username] and
    [role] of the account found. *)
Theorem no_password_in_responses (P : Platform) (w : World) (s : Session.t) :
  (∀ r, body_has_key "password" (body (handle P w s r).2) = false)
  ∧ (handle P w s GET_accounts).2
    = reply 200 (JArr (map (fun a => JObj [("_id", JId (Account._id a));
                                            ("role", JStr (Account.role a));
                                            ("username", JStr (Account.username a))])
                           (accounts w)))
  ∧ (∀ username password,
       status (handle P w s (POST_login username password)).2 = 200 →
       ∃ a, a ∈ accounts w
            ∧ body (handle P w s (POST_login username password)).2
              = Json (JObj [("success", JBool true); ("message", JStr "Login successful");
                            ("user", JObj [("id", JId (Account._id a));
                                           ("username", JStr (Account.username a));
                                           ("role", JStr (Account.role a))])])).
Proof.
  split_and!.
  - intros r. destruct (handle_cases P w s r) as [->| ->]; [done|].
    apply route_no_password.
  - done.
  - intros username password. rewrite handle_unguarded by done. simpl.
    destruct (login_cases w s username password)
      as [(st & m & -> & Hst)|(a & u & _ & Hfind & _ & ->)]; [done|].
    intros _. exists a. split; [|done].
    apply list_elem_of_In. by apply find_some in Hfind as [? _].
Qed.

(** C7, on the sample data: the login of [root]. *)
Lemma no_password_in_responses_witness :
  ∃ a, a ∈ accounts sample_world
       ∧ body (handle sample_platform sample_world Session.fresh
                 (POST_login (Some "root") (Some "pw"))).2
         = Json (JObj [("success", JBool true); ("message", JStr "Login successful");
                       ("user", JObj [("id", JId (Account._id a));
                                      ("username", JStr (Account.username a));
                                      ("role", JStr (Account.role a))])]).
Proof.
  destruct (no_password_in_responses sample_platform sample_world Session.fresh)
    as (_ & _ & H).
  apply (H (Some "root") (Some "pw")). reflexivity.
Defined.

(** ** Registration *)

(** The gate of register: 403 exactly when the [role] property of the
    session is not ["admin"]. *)
Lemma register_forbidden_iff P w s role username password fresh salt :
  status (register P w s role username password fresh salt).2 = 403
  ↔ Session.role s ≠ Some "admin".
Proof.
  unfold register. case_bool_decide as H; simpl.
  - split; [|done]. repeat case_match; done.
  - done.
Qed.

(** No route writes the [role] property of the session. *)
Lemma route_session_role P w s r :
  Session.role s = None → Session.role (route P w s r).1.2 = None.
Proof.
  intros H. destruct r; simpl; try done.
  - unfold register. repeat case_match; done.
  - destruct (login_cases w s username password)
      as [(st & m & -> & _)|(a & u & _ & _ & _ & ->)]; done.
  - destruct (listDonors_cases P w s q) as [->|[docs ->]]; done.
  - unfold deleteDonor. by case_match.
  - unfold addDonation. by case_match.
  - unfold updateDonation. repeat case_match; done.
  - unfold removeDonation. by case_match.
Qed.

Lemma reachable_session_role P w0 w s : reachable P w0 w s → Session.role s = None.
Proof.
  induction 1 as [|w s r w' s' resp _ IH Hstep]; [done|].
  destruct (handle_cases P w s r) as [E|E]; rewrite E in Hstep.
  - by injection Hstep as _ <- _.
  - pose proof (route_session_role P w s r IH) as Hr.
    rewrite Hstep in Hr. done.
Qed.

(** C2. In every state the server can reach, register answers 403 and
    changes nothing, whoever is logged in: login records the role of the
    account inside [session.user], and register reads [session.role]. *)
Theorem register_always_forbidden (P : Platform) (w0 w : World) (s : Session.t)
    (role username password : option string) (fresh : ObjectId) (salt : string) :
  reachable P w0 w s →
  handle P w s (POST_register role username password fresh salt)
  = (w, s, reply 403 (message false "Only admin can create accounts.")).
Proof.
  intros H. apply reachable_session_role in H.
  rewrite handle_unguarded by done. simpl. unfold register. by rewrite H.
Qed.

(** C2, on the sample data: [root], whose account has the role ["admin"],
    logs in and is then refused by register. *)
Lemma register_always_forbidden_witness :
  handle sample_platform sample_world Session.fresh (POST_login (Some "root") (Some "pw"))
  = (sample_world, root_session, login_reply (session_user root_account))
  ∧ su_role (session_user root_account) = "admin"
  ∧ handle sample_platform sample_world root_session
      (POST_register (Some "staff") (Some "carol") (Some "secret") 2%N "abcdefghijklmnopqrstuv")
    = (sample_world, root_session, reply 403 (message false "Only admin can create accounts.")).
Proof.
  split; [reflexivity|]. split; [reflexivity|].
  apply (register_always_forbidden sample_platform sample_world).
  apply (reach_step sample_platform sample_world sample_world Session.fresh
           (POST_login (Some "root") (Some "pw")) sample_world root_session
           (login_reply (session_user root_account))).
  - apply reach_start.
  - reflexivity.
Defined.

(** ** Register, then login *)

Lemma starts_with_app (p x : string) : JsString.starts_with p (p ++ x) = true.
Proof.
  induction p as [|c p IH]; [done|]. simpl. by rewrite Ascii.eqb_refl.
Qed.

Lemma bcrypt_hash_prefix P salt data :
  JsString.starts_with "$2b$10$" (bcrypt_hash P salt data) = true.
Proof. unfold bcrypt_hash. apply starts_with_app. Qed.

Lemma findOne_app_new (l : list Account.t) (a : Account.t) (u : string) :
  Account.username a = u →
  Account.findOne l u = None →
  Account.findOne (l ++ [a]) u = Some a.
Proof.
  intros <-. unfold Account.findOne. induction l as [|x l IH]; simpl.
  - by rewrite bool_decide_eq_true_2.
  - case_bool_decide; [done|auto].
Qed.

(** What a successful register did. *)
Lemma register_created P w s role username password fresh salt w' s' :
  register P w s role username password fresh salt
  = (w', s', reply 200 (message true "Account created successfully.")) →
  ∃ r u p, role = Some r ∧ username = Some u ∧ password = Some p
           ∧ Account.findOne (accounts w) u = None
           ∧ s' = s
           ∧ w' = {| accounts := accounts w ++ [Account.mk fresh r u (bcrypt_hash P salt p)];
                     donors := donors w |}.
Proof.
  unfold register. intros H.
  repeat case_match; simplify_eq.
  eexists _, _, _. by split_and!.
Qed.

(** After a successful register, a login with the name registered (a name
    without white space at its ends) and a password is accepted exactly
    when the password is the stored hash. *)
Lemma login_after_register P w s r u p fresh salt w' s' p' :
  register P w s (Some r) (Some u) (Some p) fresh salt
  = (w', s', reply 200 (message true "Account created successfully.")) →
  JsString.trim u = u →
  status (login w' s' (Some u) (Some p')).2 = 200 ↔ p' = bcrypt_hash P salt p.
Proof.
  intros H Hu. apply register_created in H as (r0 & u0 & p0 & ? & ? & ? & Hnone & -> & ->).
  simplify_eq. unfold login, login_try. simpl. rewrite Hu.
  rewrite (findOne_app_new (accounts w) (Account.mk fresh r0 u0 (bcrypt_hash P salt p0)) u0)
    by done.
  simpl. case_bool_decide as Hp; simpl.
  - split; [|done]. intros _. congruence.
  - split; [done|]. intros ->. done.
Qed.

(** At the handlers: after register has stored an account, login with the
    same name and the same plain-text password is answered 401 and leaves
    the session as it was. *)
Theorem register_then_login_rejected (P : Platform) (w w' : World) (s s' : Session.t)
    (r u p : string) (fresh : ObjectId) (salt : string) :
  register P w s (Some r) (Some u) (Some p) fresh salt
  = (w', s', reply 200 (message true "Account created successfully.")) →
  JsString.trim u = u →
  JsString.starts_with "$2b$10$" p = false →
  login w' s' (Some u) (Some p) = (w', s', reply 401 (message false "Invalid credentials")).
Proof.
  intros H Hu Hp.
  apply register_created in H as (r0 & u0 & p0 & ? & ? & ? & Hnone & -> & ->).
  simplify_eq. unfold login, login_try. simpl. rewrite Hu.
  rewrite (findOne_app_new (accounts w) (Account.mk fresh r0 u0 (bcrypt_hash P salt p0)) u0)
    by done.
  simpl. case_bool_decide as E; [|done].
  injection E as E. pose proof (bcrypt_hash_prefix P salt p0) as Hh.
  rewrite E in Hh. congruence.
Qed.

(** ** The donor query *)

Lemma matches_singleton (k : string) (c : cond) (d : PipeDoc) :
  matches {[k := c]} d = holds c (path_value k d).
Proof. unfold matches. rewrite map_to_list_singleton. simpl. apply andb_true_r. Qed.

Lemma matches_empty (d : PipeDoc) : matches ∅ d = true.
Proof. unfold matches. by rewrite map_to_list_empty. Qed.

(** The object of the second [$match] when [maxTotal] is given: the
    [totalDonation] written for [maxTotal] replaces the one written for
    [minTotal]. *)
Lemma total_bounds_max (q : DonorQuery) (hi : string) :
  maxTotal q = Some hi → JsString.truthy hi = true →
  total_bounds q = {["totalDonation" := CLte (Num.parseFloat hi)]}.
Proof.
  intros Hq Ht. unfold total_bounds, spread, if_truthy. rewrite Hq, Ht.
  destruct (minTotal q) as [lo|]; [destruct (JsString.truthy lo)|].
  - apply map_eq. intros k. rewrite lookup_union.
    destruct (decide (k = "totalDonation")) as [->|N].
    + by rewrite !lookup_singleton_eq.
    + by rewrite !lookup_singleton_ne.
  - apply (right_id ∅ (∪)).
  - apply (right_id ∅ (∪)).
Qed.

(** The object of the second [$match] when only [minTotal] is given. *)
Lemma total_bounds_min (q : DonorQuery) (lo : string) :
  minTotal q = Some lo → JsString.truthy lo = true →
  JsString.truthy_opt (maxTotal q) = false →
  total_bounds q = {["totalDonation" := CGte (Num.parseFloat lo)]}.
Proof.
  intros Hq Ht Hm. unfold total_bounds, spread, if_truthy. rewrite Hq, Ht.
  destruct (maxTotal q) as [hi|]; simpl in Hm; [rewrite Hm|]; apply (left_id ∅ (∪)).
Qed.

Lemma In_insert_sorted le x y l : In y (insert_sorted le x l) ↔ x = y ∨ In y l.
Proof.
  induction l as [|z l IH]; simpl; [tauto|].
  destruct (le x z); simpl; [tauto|]. rewrite IH. tauto.
Qed.

Lemma In_sort_docs le y l : In y (sort_docs le l) ↔ In y l.
Proof.
  induction l as [|z l IH]; simpl; [done|].
  rewrite In_insert_sorted, IH. tauto.
Qed.

(** The documents [GET /api/donors] returns: a stored donor that matches
    the [filter] object, with its total added, that matches the object of
    the second [$match] when a bound is given. *)
Lemma aggregate_In P q stages ds :
  pipeline P q = Normal stages →
  ∃ filter, build_filter P q = Normal filter
    ∧ ∀ d, In d (aggregate P stages ds)
           ↔ ∃ x, In x ds ∧ matches filter (stored x) = true
                  ∧ d = add_totalDonation (stored x)
                  ∧ (bounded q = true → matches (total_bounds q) d = true).
Proof.
  unfold pipeline. destruct (build_filter P q) as [filter|] eqn:E; [|done].
  simpl. intros [= <-]. exists filter. split; [done|]. intros d.
  unfold aggregate. simpl. rewrite fold_left_app.
  set (base := map add_totalDonation (List.filter (matches filter) (map stored ds))).
  assert (Hbase : ∀ d, In d base ↔ ∃ x, In x ds ∧ matches filter (stored x) = true
                                        ∧ d = add_totalDonation (stored x)).
  { intros d0. unfold base. rewrite in_map_iff. split.
    - intros (y & <- & Hy). apply filter_In in Hy as [Hy Hm].
      apply in_map_iff in Hy as (x & <- & Hx). by exists x.
    - intros (x & Hx & Hm & ->). exists (stored x). split; [done|].
      apply filter_In. split; [|done]. apply in_map_iff. by exists x. }
  assert (Hsort : ∀ l, In d (fold_left (fun docs s => run_stage P s docs)
                               (if_truthy (sortBy q)
                                  (fun k => [Sort k (bool_decide (sortOrder q = Some "desc"))])
                                  []) l) ↔ In d l).
  { intros l. unfold if_truthy. destruct (sortBy q) as [k|]; [|done].
    destruct (JsString.truthy k); [|done]. simpl. apply In_sort_docs. }
  rewrite Hsort. destruct (bounded q); simpl.
  - rewrite filter_In, Hbase. split.
    + intros [(x & ? & ? & ?) ?]. exists x. by split_and!.
    + intros (x & ? & ? & ? & Hb). split; [by exists x|by apply Hb].
  - rewrite Hbase. split.
    + intros (x & ? & ? & ?). exists x. by split_and!.
    + intros (x & ? & ? & ? & _). by exists x.
Qed.

(** Every document returned carries, as [totalDonation], the sum of the
    amounts of its donations. *)
Lemma aggregate_total P q stages ds d :
  pipeline P q = Normal stages → In d (aggregate P stages ds) →
  In (doc d) ds ∧ totalDonation d = Some (sum_amounts (Donor.donations (doc d))).
Proof.
  intros Hp Hd. destruct (aggregate_In P q stages ds Hp) as (filter & _ & H).
  apply H in Hd. destruct Hd as (x & Hx & _ & Heq & _). by subst d.
Qed.

(** With [minTotal] alone, the donors kept are those whose total is at
    least the bound. *)
Lemma aggregate_min_only P q stages ds lo :
  pipeline P q = Normal stages →
  minTotal q = Some lo → JsString.truthy lo = true →
  JsString.truthy_opt (maxTotal q) = false →
  ∃ filter, build_filter P q = Normal filter
    ∧ ∀ d, In d (aggregate P stages ds)
           ↔ ∃ x, In x ds ∧ matches filter (stored x) = true
                  ∧ d = add_totalDonation (stored x)
                  ∧ Num.le (Num.parseFloat lo) (Fin (sum_amounts (Donor.donations x))) = true.
Proof.
  intros Hp Hq Ht Hm. destruct (aggregate_In P q stages ds Hp) as (filter & Hf & H).
  exists filter. split; [done|]. intros d. rewrite H.
  assert (Hb : bounded q = true).
  { unfold bounded. rewrite Hq. simpl. rewrite Ht. reflexivity. }
  rewrite (total_bounds_min q lo) by done.
  split.
  - intros (x & Hx & Hmt & -> & Hc). specialize (Hc Hb).
    rewrite matches_singleton in Hc. exists x.
    split; [exact Hx|]. split; [exact Hmt|]. split; [reflexivity|exact Hc].
  - intros (x & Hx & Hmt & -> & Hc). exists x.
    split; [exact Hx|]. split; [exact Hmt|]. split; [reflexivity|].
    intros _. rewrite matches_singleton. exact Hc.
Qed.

(** With [maxTotal], the donors kept are those whose total is at most the
    bound, whether [minTotal] is given or not. *)
Lemma aggregate_max P q stages ds hi :
  pipeline P q = Normal stages →
  maxTotal q = Some hi → JsString.truthy hi = true →
  ∃ filter, build_filter P q = Normal filter
    ∧ ∀ d, In d (aggregate P stages ds)
           ↔ ∃ x, In x ds ∧ matches filter (stored x) = true
                  ∧ d = add_totalDonation (stored x)
                  ∧ Num.le (Fin (sum_amounts (Donor.donations x))) (Num.parseFloat hi) = true.
Proof.
  intros Hp Hq Ht. destruct (aggregate_In P q stages ds Hp) as (filter & Hf & H).
  exists filter. split; [done|]. intros d. rewrite H.
  assert (Hb : bounded q = true).
  { unfold bounded. rewrite Hq. simpl. rewrite Ht. apply orb_true_r. }
  rewrite (total_bounds_max q hi) by done.
  split.
  - intros (x & Hx & Hm & -> & Hc). specialize (Hc Hb).
    rewrite matches_singleton in Hc. exists x.
    split; [exact Hx|]. split; [exact Hm|]. split; [reflexivity|exact Hc].
  - intros (x & Hx & Hm & -> & Hc). exists x.
    split; [exact Hx|]. split; [exact Hm|]. split; [reflexivity|].
    intros _. rewrite matches_singleton. exact Hc.
Qed.

(** A bound that is NaN keeps no donor. *)
Lemma holds_nan_bound (v : option bson) : holds (CGte NaN) v = false ∧ holds (CLte NaN) v = false.
Proof. by destruct v as [[s|x]|]. Qed.

Lemma no_element_nil {A} (l : list A) : (∀ x, ¬ In x l) → l = [].
Proof. destruct l as [|a l]; [done|]. intros H. destruct (H a). by left. Qed.

(** The part of C5 that holds: a non-numeric [maxTotal], or a non-numeric
    [minTotal] without [maxTotal], yields an empty list of donors. *)
Lemma aggregate_nan_bound P q stages ds :
  pipeline P q = Normal stages →
  (∃ hi, maxTotal q = Some hi ∧ JsString.truthy hi = true ∧ Num.parseFloat hi = NaN)
  ∨ (∃ lo, minTotal q = Some lo ∧ JsString.truthy lo = true ∧ Num.parseFloat lo = NaN
           ∧ JsString.truthy_opt (maxTotal q) = false) →
  aggregate P stages ds = [].
Proof.
  intros Hp Hq. destruct (aggregate_In P q stages ds Hp) as (filter & _ & H).
  apply no_element_nil. intros d Hd. apply H in Hd.
  destruct Hd as (x & _ & _ & _ & Hb).
  destruct Hq as [(hi & Hq & Ht & Hn)|(lo & Hq & Ht & Hn & Hm)].
  - rewrite (total_bounds_max q hi), matches_singleton, Hn in Hb by done.
    rewrite (proj2 (holds_nan_bound _)) in Hb. apply diff_false_true, Hb.
    unfold bounded. rewrite Hq. simpl. rewrite Ht. apply orb_true_r.
  - rewrite (total_bounds_min q lo), matches_singleton, Hn in Hb by done.
    rewrite (proj1 (holds_nan_bound _)) in Hb. apply diff_false_true, Hb.
    unfold bounded. rewrite Hq. simpl. rewrite Ht. reflexivity.
Qed.

(** C4, as the code has it. With [minTotal=100] and [maxTotal=600] the
    server returns Ann, whose total 80 is below 100, next to Bob: both
    bounds are written under the key [totalDonation] of one object, and
    only the second, [$lte], is left in it. *)
Theorem listDonors_lower_bound_lost (P : Platform) (s : Session.t) :
  listDonors P sample_world s between_100_and_600
  = (sample_world, s,
     reply 200 (JObj [("success", JBool true);
                      ("donors",
                       JArr [pipedoc_json {| doc := ann; totalDonation := Some 80%Q |};
                             pipedoc_json {| doc := bob; totalDonation := Some 500%Q |}])]))
  ∧ Num.le (Num.parseFloat "100") (Fin 80%Q) = false
  ∧ sum_amounts (Donor.donations ann) = 80%Q.
Proof. split_and!; vm_compute; reflexivity. Qed.

(** C5, as the code has it. With [minTotal=abc] and [maxTotal=600] the
    server returns both donors: the comparison with NaN written for
    [minTotal] is replaced by the one written for [maxTotal]. *)
Theorem listDonors_nan_bound_lost (P : Platform) (s : Session.t) :
  Num.parseFloat "abc" = NaN
  ∧ listDonors P sample_world s from_abc_to_600
    = (sample_world, s,
       reply 200 (JObj [("success", JBool true);
                        ("donors",
                         JArr [pipedoc_json {| doc := ann; totalDonation := Some 80%Q |};
                               pipedoc_json {| doc := bob; totalDonation := Some 500%Q |}])])).
Proof. split; vm_compute; reflexivity. Qed.

(** On the sample data, a single bound does what the bounds are meant to
    do: [minTotal=100] keeps Bob alone, [minTotal=abc] keeps nobody. *)
Lemma listDonors_single_bound (P : Platform) (s : Session.t) :
  listDonors P sample_world s from_100
  = (sample_world, s,
     reply 200 (JObj [("success", JBool true);
                      ("donors",
                       JArr [pipedoc_json {| doc := bob; totalDonation := Some 500%Q |}])]))
  ∧ listDonors P sample_world s from_abc
    = (sample_world, s, reply 200 (JObj [("success", JBool true); ("donors", JArr [])])).
Proof. split; vm_compute; reflexivity. Qed.

(** * Further properties *)

(** ** Sessions *)

Lemma route_session P w s r : session_route r = false → (route P w s r).1.2 = s.
Proof.
  destruct r; simpl; try done; intros _.
  - unfold register. repeat case_match; done.
  - destruct (listDonors_cases P w s q) as [->|[docs ->]]; done.
  - unfold deleteDonor. by case_match.
  - unfold addDonation. by case_match.
  - unfold updateDonation. repeat case_match; done.
  - unfold removeDonation. by case_match.
Qed.

(** X1. Only login and logout write the session: every other request,
    served or refused, leaves the session as it was. *)
Theorem session_written_by_login_and_logout_only
    (P : Platform) (w : World) (s : Session.t) (r : Request) :
  session_route r = false → (handle P w s r).1.2 = s.
Proof.
  intros H. destruct (handle_cases P w s r) as [->| ->]; [done|].
  by apply route_session.
Qed.

Lemma session_written_by_login_and_logout_only_witness :
  (handle sample_platform sample_world root_session (DELETE_account 1%N)).1.2 = root_session.
Proof.
  apply (session_written_by_login_and_logout_only sample_platform sample_world root_session
           (DELETE_account 1%N)). reflexivity.
Defined.

(** X2. Login answers 200 exactly when the first account whose name is the
    trimmed username has the password sent. It then records that account's
    id, name and role as the session user and keeps the rest of the
    session; otherwise the session is untouched. The stores never
    change. *)
Theorem login_outcome (w : World) (s : Session.t) (username password : option string) :
  (status (login w s username password).2 = 200
   ↔ ∃ u a, username = Some u
            ∧ Account.findOne (accounts w) (JsString.trim u) = Some a
            ∧ password = Some (Account.password a))
  ∧ (login w s username password).1.1 = w
  ∧ (status (login w s username password).2 ≠ 200 → (login w s username password).1.2 = s)
  ∧ (∀ u a, username = Some u →
            Account.findOne (accounts w) (JsString.trim u) = Some a →
            password = Some (Account.password a) →
            (login w s username password).1.2
            = Session.mk (Some (session_user a)) (Session.role s)).
Proof.
  destruct (login_cases w s username password)
    as [(st & m & E & Hst)|(a & u & Hu & Hf & Hp & E)]; rewrite E; simpl.
  - split_and!; try done.
    + split; [done|]. intros (u & a & -> & Hf & ->).
      revert E. unfold login, login_try. simpl. rewrite Hf. simpl.
      rewrite bool_decide_eq_true_2 by done. simpl. intros E. by simplify_eq.
    + intros u a -> Hf ->. revert E. unfold login, login_try. simpl. rewrite Hf. simpl.
      rewrite bool_decide_eq_true_2 by done. simpl. intros E. by simplify_eq.
  - split_and!; try done.
    + split; [|done]. intros _. by exists u, a.
    + intros u' a' Hu' Hf' _. simplify_eq. done.
Qed.

Lemma login_outcome_witness :
  (login sample_world Session.fresh (Some " root ") (Some "pw")).1.2
  = Session.mk (Some (session_user root_account)) None.
Proof.
  destruct (login_outcome sample_world Session.fresh (Some " root ") (Some "pw"))
    as (_ & _ & _ & H).
  apply (H " root " root_account); reflexivity.
Defined.

(** X3. Once login has answered 200, the session it leaves passes
    [requireLogin]: every request made with it reaches its handler. *)
Theorem login_opens_guarded_routes
    (P : Platform) (w : World) (s : Session.t) (username password : option string)
    (r : Request) :
  status (handle P w s (POST_login username password)).2 = 200 →
  handle P (handle P w s (POST_login username password)).1.1
           (handle P w s (POST_login username password)).1.2 r
  = route P (handle P w s (POST_login username password)).1.1
            (handle P w s (POST_login username password)).1.2 r.
Proof.
  rewrite handle_unguarded by done. simpl.
  destruct (login_cases w s username password)
    as [(st & m & -> & Hst)|(a & u & _ & _ & _ & ->)]; simpl; [done|].
  intros _. by apply handle_logged_in with (session_user a).
Qed.

Lemma login_opens_guarded_routes_witness :
  handle sample_platform sample_world root_session (DELETE_donor 10%N)
  = route sample_platform sample_world root_session (DELETE_donor 10%N).
Proof.
  apply (login_opens_guarded_routes sample_platform sample_world Session.fresh
           (Some "root") (Some "pw") (DELETE_donor 10%N)). reflexivity.
Defined.

(** X4. Logout answers 200 whatever the session, leaves the stores alone,
    and after it every donor and donation endpoint answers 401 until the
    next login; a second logout changes nothing more. *)
Theorem logout_closes_guarded_routes
    (P : Platform) (w : World) (s : Session.t) (r : Request) :
  donor_endpoint r = true →
  handle P w s POST_logout = (w, Session.fresh, reply 200 (message true "Logged out"))
  ∧ handle P w Session.fresh POST_logout
    = (w, Session.fresh, reply 200 (message true "Logged out"))
  ∧ handle P (handle P w s POST_logout).1.1 (handle P w s POST_logout).1.2 r
    = (w, Session.fresh, reply 401 (message false "Unauthorized. Please log in.")).
Proof.
  intros Hr. split_and!; try done.
  rewrite (handle_unguarded P w s POST_logout) by done. simpl.
  unfold handle, requireLogin. by rewrite guarded_donor_endpoint, Hr.
Qed.

Lemma logout_closes_guarded_routes_witness :
  handle sample_platform sample_world Session.fresh (GET_donors no_parameters)
  = (sample_world, Session.fresh, reply 401 (message false "Unauthorized. Please log in.")).
Proof.
  apply (logout_closes_guarded_routes sample_platform sample_world root_session
           (GET_donors no_parameters)). reflexivity.
Defined.

(** X5. Deleting an account does not end a session opened with it: the
    session user stays recorded and the donor routes stay open to it. *)
Theorem deleted_account_keeps_session
    (P : Platform) (w : World) (s : Session.t) (u : SessionUser) (r : Request) :
  Session.user s = Some u →
  (handle P w s (DELETE_account (id u))).1.2 = s
  ∧ handle P (handle P w s (DELETE_account (id u))).1.1 s r
    = route P (handle P w s (DELETE_account (id u))).1.1 s r.
Proof.
  intros H. split; [done|]. by apply handle_logged_in with u.
Qed.

Lemma deleted_account_keeps_session_witness :
  (handle sample_platform sample_world root_session (DELETE_account 1%N)).1.2 = root_session
  ∧ handle sample_platform
      (handle sample_platform sample_world root_session (DELETE_account 1%N)).1.1
      root_session (GET_donors no_parameters)
    = route sample_platform
        (handle sample_platform sample_world root_session (DELETE_account 1%N)).1.1
        root_session (GET_donors no_parameters).
Proof.
  apply (deleted_account_keeps_session sample_platform sample_world root_session
           {| id := 1%N; su_username := "root"; su_role := "admin" |}
           (GET_donors no_parameters)). reflexivity.
Defined.

(** ** Trimming *)

Section Trim.
Implicit Types (s t v : string) (c : ascii).
Local Open Scope string_scope.

Lemma string_app_cons c s t : String c s ++ t = String c (s ++ t).
Proof. reflexivity. Qed.

Lemma string_app_assoc s t v : (s ++ t) ++ v = s ++ (t ++ v).
Proof.
  induction s as [|c s IH]; [reflexivity|].
  rewrite !string_app_cons. by f_equal.
Qed.

Lemma string_app_nil_r s : s ++ "" = s.
Proof.
  induction s as [|c s IH]; [reflexivity|].
  rewrite string_app_cons. by f_equal.
Qed.

Lemma rev_app_spec s t : String.rev_app s t = String.rev s ++ t.
Proof.
  revert t. induction s as [|c s IH]; intros t; [reflexivity|].
  unfold String.rev. cbn [String.rev_app].
  rewrite (IH (String c t)), (IH (String c "")).
  rewrite string_app_assoc. reflexivity.
Qed.

Lemma rev_cons c s : String.rev (String c s) = String.rev s ++ String c "".
Proof. unfold String.rev at 1. cbn [String.rev_app]. apply rev_app_spec. Qed.

Lemma rev_app s t : String.rev (s ++ t) = String.rev t ++ String.rev s.
Proof.
  induction s as [|c s IH].
  - change ("" ++ t) with t. change (String.rev "") with "".
    by rewrite string_app_nil_r.
  - by rewrite string_app_cons, !rev_cons, IH, string_app_assoc.
Qed.

Lemma rev_involutive s : String.rev (String.rev s) = s.
Proof.
  induction s as [|c s IH]; [reflexivity|].
  rewrite rev_cons, rev_app, IH. reflexivity.
Qed.

Lemma trimStart_clean s : clean_start (JsString.trimStart s).
Proof.
  induction s as [|c s IH]; simpl; [done|].
  destruct (JsString.is_white c) eqn:E; [done|]. simpl. done.
Qed.

Lemma trimStart_id s : clean_start s → JsString.trimStart s = s.
Proof. destruct s as [|c s]; simpl; [done|]. by intros ->. Qed.

Lemma trimStart_app s c t :
  JsString.is_white c = false →
  JsString.trimStart (s ++ String c t) = JsString.trimStart s ++ String c t.
Proof.
  intros Hc. induction s as [|d s IH].
  - change ("" ++ String c t) with (String c t). cbn [JsString.trimStart].
    by rewrite Hc.
  - rewrite string_app_cons. cbn [JsString.trimStart].
    destruct (JsString.is_white d); [exact IH|reflexivity].
Qed.

Lemma trimEnd_clean_start s : clean_start s → clean_start (JsString.trimEnd s).
Proof.
  destruct s as [|c s]; [done|]. cbn [clean_start]. intros Hc. unfold JsString.trimEnd.
  rewrite rev_cons, trimStart_app by done.
  rewrite rev_app. change (String.rev (String c "")) with (String c "").
  rewrite string_app_cons. exact Hc.
Qed.

Lemma trimEnd_id s : clean_start (String.rev s) → JsString.trimEnd s = s.
Proof.
  intros H. unfold JsString.trimEnd. rewrite trimStart_id by done.
  apply rev_involutive.
Qed.

Lemma trim_idempotent s : JsString.trim (JsString.trim s) = JsString.trim s.
Proof.
  unfold JsString.trim at 1.
  rewrite (trimStart_id (JsString.trim s)).
  - apply trimEnd_id. unfold JsString.trim, JsString.trimEnd.
    rewrite rev_involutive. apply trimStart_clean.
  - apply trimEnd_clean_start, trimStart_clean.
Qed.
End Trim.

(** X6. Login looks the account up by the trimmed username, so white
    space around the name is of no effect: the outcome is that of the
    trimmed name. *)
Theorem login_ignores_surrounding_space (P : Platform) (w : World) (s : Session.t)
    (u : string) (password : option string) :
  handle P w s (POST_login (Some u) password)
  = handle P w s (POST_login (Some (JsString.trim u)) password).
Proof.
  rewrite !handle_unguarded by done. simpl.
  unfold login, login_try. simpl. by rewrite trim_idempotent.
Qed.

(** ** Registration and the account store *)

Lemma findOne_None_not_in (l : list Account.t) (u : string) :
  Account.findOne l u = None → u ∉ map Account.username l.
Proof.
  unfold Account.findOne. intros H Hin. apply list_elem_of_In, in_map_iff in Hin.
  destruct Hin as (a & Ha & Hin). pose proof (find_none _ _ H a Hin) as Hf.
  simpl in Hf. by rewrite bool_decide_eq_true_2 in Hf.
Qed.

Lemma register_created_or_unchanged P w s role username password fresh salt :
  (register P w s role username password fresh salt).2
  = reply 200 (message true "Account created successfully.")
  ∨ ((register P w s role username password fresh salt).1 = (w, s)
     ∧ (register P w s role username password fresh salt).2
       ≠ reply 200 (message true "Account created successfully.")).
Proof. unfold register. repeat case_match; simpl; auto. Qed.

(** X7. Register keeps user names unique: when no two stored accounts
    share a name, none do after a register request, whatever it answers. *)
Theorem register_keeps_usernames_unique (P : Platform) (w : World) (s : Session.t)
    (role username password : option string) (fresh : ObjectId) (salt : string) :
  NoDup (usernames w) →
  NoDup (usernames (handle P w s (POST_register role username password fresh salt)).1.1).
Proof.
  intros Hnd. rewrite handle_unguarded by done. simpl.
  destruct (register P w s role username password fresh salt) as [[w' s'] resp] eqn:E.
  destruct (register_created_or_unchanged P w s role username password fresh salt)
    as [H|[H _]]; rewrite E in H; simpl in H.
  - subst resp. apply register_created in E
      as (r & u & p & _ & _ & _ & Hnone & _ & ->).
    unfold usernames. simpl. rewrite map_app. apply NoDup_app. split_and!.
    + done.
    + intros x Hx Hin. apply list_elem_of_In in Hin. simpl in Hin.
      destruct Hin as [<-|[]]. by apply findOne_None_not_in in Hnone.
    + apply NoDup_singleton.
  - by injection H as -> _.
Qed.

Lemma register_keeps_usernames_unique_witness :
  NoDup (usernames (handle sample_platform sample_world role_admin_session
                      (POST_register (Some "staff") (Some "carol") (Some "secret") 2%N
                                     "abcdefghijklmnopqrstuv")).1.1).
Proof.
  apply (register_keeps_usernames_unique sample_platform sample_world role_admin_session).
  apply NoDup_singleton.
Defined.

(** X8. When register answers 'Account created successfully.', the store
    holds one more account, at the end: it has the id drawn, the role and
    the name sent, and as password the bcrypt hash, which starts with
    [$2b$10$]; a lookup by that name finds it. Donors and session are as
    before. *)
Theorem register_stores_hashed_account (P : Platform) (w w' : World) (s s' : Session.t)
    (role username password : option string) (fresh : ObjectId) (salt : string) :
  register P w s role username password fresh salt
  = (w', s', reply 200 (message true "Account created successfully.")) →
  ∃ r u p a,
    role = Some r ∧ username = Some u ∧ password = Some p
    ∧ accounts w' = accounts w ++ [a]
    ∧ Account.findOne (accounts w') u = Some a
    ∧ Account._id a = fresh ∧ Account.role a = r ∧ Account.username a = u
    ∧ Account.password a = bcrypt_hash P salt p
    ∧ JsString.starts_with "$2b$10$" (Account.password a) = true
    ∧ donors w' = donors w ∧ s' = s.
Proof.
  intros H. apply register_created in H as (r & u & p & -> & -> & -> & Hnone & -> & ->).
  exists r, u, p, (Account.mk fresh r u (bcrypt_hash P salt p)). simpl.
  split_and!; try done.
  by apply findOne_app_new.
Qed.

Lemma register_stores_hashed_account_witness :
  ∃ w' a,
    register sample_platform sample_world role_admin_session
      (Some "staff") (Some "carol") (Some "secret") 2%N "abcdefghijklmnopqrstuv"
    = (w', role_admin_session, reply 200 (message true "Account created successfully."))
    ∧ Account.findOne (accounts w') "carol" = Some a
    ∧ Account.role a = "staff"
    ∧ JsString.starts_with "$2b$10$" (Account.password a) = true.
Proof.
  eexists.
  destruct (register_stores_hashed_account sample_platform sample_world _
              role_admin_session role_admin_session (Some "staff") (Some "carol")
              (Some "secret") 2%N "abcdefghijklmnopqrstuv" eq_refl)
    as (r & u & p & a & Hr & Hu & _ & _ & Hfind & _ & Hrole & _ & _ & Hpre & _).
  exists a. injection Hr as <-. injection Hu as <-.
  split; [reflexivity|]. split; [exact Hfind|]. split; [exact Hrole|exact Hpre].
Defined.

(** X9. Register refuses without writing anything: whenever the answer is
    not 'Account created successfully.', stores and session are unchanged.
    With a session whose role is admin, a field that is absent or empty is
    answered 'All fields are required.', and a name already stored
    'Username already exists.'; both with status 200. *)
Theorem register_refusals (P : Platform) (w : World) (s : Session.t)
    (role username password : option string) (fresh : ObjectId) (salt : string) :
  ((register P w s role username password fresh salt).2
   ≠ reply 200 (message true "Account created successfully.") →
   (register P w s role username password fresh salt).1 = (w, s))
  ∧ (Session.role s = Some "admin" →
     JsString.truthy_opt username && JsString.truthy_opt password
       && JsString.truthy_opt role = false →
     (register P w s role username password fresh salt).2
     = reply 200 (message false "All fields are required."))
  ∧ (∀ u a, Session.role s = Some "admin" →
            JsString.truthy_opt username && JsString.truthy_opt password
              && JsString.truthy_opt role = true →
            username = Some u → Account.findOne (accounts w) u = Some a →
            (register P w s role username password fresh salt).2
            = reply 200 (message false "Username already exists.")).
Proof.
  split_and!.
  - intros H.
    by destruct (register_created_or_unchanged P w s role username password fresh salt)
      as [?|[? _]].
  - intros Hs Hf. unfold register. rewrite Hs. simpl.
    destruct username as [u|], password as [p|], role as [r|]; simpl in *; try done.
    destruct (JsString.truthy u), (JsString.truthy p), (JsString.truthy r); done.
  - intros u a Hs Hf -> Hfind. unfold register. rewrite Hs. simpl.
    destruct password as [p|], role as [r|]; simpl in *;
      try by rewrite ?andb_false_r in Hf.
    destruct (JsString.truthy u), (JsString.truthy p), (JsString.truthy r); try done.
    simpl. by rewrite Hfind.
Qed.

Lemma register_refusals_witness :
  (register sample_platform sample_world role_admin_session
     (Some "staff") (Some "") (Some "secret") 2%N "abcdefghijklmnopqrstuv").2
  = reply 200 (message false "All fields are required.")
  ∧ (register sample_platform sample_world role_admin_session
       (Some "staff") (Some "root") (Some "secret") 2%N "abcdefghijklmnopqrstuv").2
    = reply 200 (message false "Username already exists.").
Proof.
  split.
  - destruct (register_refusals sample_platform sample_world role_admin_session
                (Some "staff") (Some "") (Some "secret") 2%N "abcdefghijklmnopqrstuv")
      as (_ & H & _).
    apply H; reflexivity.
  - destruct (register_refusals sample_platform sample_world role_admin_session
                (Some "staff") (Some "root") (Some "secret") 2%N "abcdefghijklmnopqrstuv")
      as (_ & _ & H).
    apply (H "root" root_account); reflexivity.
Defined.

(** ** Account management *)

Section AccountStore.
Implicit Types (l : list Account.t) (X : ObjectId) (u r : option string).

Lemma update_ids l X u r :
  map Account._id (Account.findByIdAndUpdate l X u r) = map Account._id l.
Proof. induction l as [|a l IH]; simpl; [done|]. case_bool_decide; simpl; congruence. Qed.

Lemma update_passwords l X u r :
  map Account.password (Account.findByIdAndUpdate l X u r) = map Account.password l.
Proof. induction l as [|a l IH]; simpl; [done|]. case_bool_decide; simpl; congruence. Qed.

Lemma update_others l X u r :
  other_accounts X (Account.findByIdAndUpdate l X u r) = other_accounts X l.
Proof.
  induction l as [|a l IH]; simpl; [done|].
  destruct (bool_decide_reflect (Account._id a = X)) as [E|N]; simpl.
  - by rewrite bool_decide_eq_true_2.
  - rewrite bool_decide_eq_false_2 by done. simpl. by rewrite IH.
Qed.

Lemma update_unknown l X u r :
  X ∉ map Account._id l → Account.findByIdAndUpdate l X u r = l.
Proof.
  induction l as [|a l IH]; simpl; [done|]. intros H.
  apply not_elem_of_cons in H as [H1 H2].
  rewrite bool_decide_eq_false_2 by done. by rewrite IH.
Qed.

Lemma update_written l X (nm rl : string) :
  X ∈ map Account._id l →
  ∃ a, a ∈ Account.findByIdAndUpdate l X (Some nm) (Some rl)
       ∧ Account._id a = X ∧ Account.username a = nm ∧ Account.role a = rl.
Proof.
  induction l as [|a l IH]; simpl; [by intros ?%elem_of_nil|].
  intros H. destruct (bool_decide_reflect (Account._id a = X)) as [E|N].
  - eexists. split; [apply list_elem_of_here|]. done.
  - apply elem_of_cons in H as [H|H]; [done|].
    destruct (IH H) as (a' & Hin & ?). exists a'. split; [by apply list_elem_of_further|done].
Qed.

Lemma delete_others l X :
  other_accounts X (Account.findByIdAndDelete l X) = other_accounts X l.
Proof.
  induction l as [|a l IH]; simpl; [done|].
  destruct (bool_decide_reflect (Account._id a = X)) as [E|N]; simpl; [done|].
  rewrite bool_decide_eq_false_2 by done. simpl. by rewrite IH.
Qed.

Lemma delete_unknown l X :
  X ∉ map Account._id l → Account.findByIdAndDelete l X = l.
Proof.
  induction l as [|a l IH]; simpl; [done|]. intros H.
  apply not_elem_of_cons in H as [H1 H2].
  rewrite bool_decide_eq_false_2 by done. by rewrite IH.
Qed.

Lemma delete_gone l X :
  NoDup (map Account._id l) → X ∉ map Account._id (Account.findByIdAndDelete l X).
Proof.
  induction l as [|a l IH]; simpl; [intros _; apply not_elem_of_nil|].
  intros H. apply NoDup_cons in H as [H1 H2].
  destruct (bool_decide_reflect (Account._id a = X)) as [E|N]; simpl.
  - by rewrite <- E.
  - apply not_elem_of_cons. split; [done|auto].
Qed.
End AccountStore.

(** X10. [PUT /api/accounts/:id] always answers 200. It never changes an
    id or a password, nor any account of another id; for an id that no
    account has it changes nothing; for an id some account has, with both
    fields sent, an account of that id has the name and the role sent. *)
Theorem updateAccount_effect (P : Platform) (w : World) (s : Session.t) (X : ObjectId)
    (username role : option string) :
  (handle P w s (PUT_account X username role)).2
  = reply 200 (message true "Account updated successfully.")
  ∧ account_ids (handle P w s (PUT_account X username role)).1.1 = account_ids w
  ∧ map Account.password (accounts (handle P w s (PUT_account X username role)).1.1)
    = map Account.password (accounts w)
  ∧ other_accounts X (accounts (handle P w s (PUT_account X username role)).1.1)
    = other_accounts X (accounts w)
  ∧ donors (handle P w s (PUT_account X username role)).1.1 = donors w
  ∧ (X ∉ account_ids w →
     accounts (handle P w s (PUT_account X username role)).1.1 = accounts w)
  ∧ (∀ u' r', X ∈ account_ids w → username = Some u' → role = Some r' →
       ∃ a, a ∈ accounts (handle P w s (PUT_account X username role)).1.1
            ∧ Account._id a = X ∧ Account.username a = u' ∧ Account.role a = r').
Proof.
  rewrite handle_unguarded by done. simpl. split_and!; try done.
  - apply update_ids.
  - apply update_passwords.
  - apply update_others.
  - apply update_unknown.
  - intros u' r' Hin -> ->. by apply update_written.
Qed.

Lemma updateAccount_effect_witness :
  accounts (handle sample_platform sample_world Session.fresh
              (PUT_account 7%N (Some "eve") (Some "admin"))).1.1
  = accounts sample_world
  ∧ ∃ a, a ∈ accounts (handle sample_platform sample_world Session.fresh
                         (PUT_account 1%N (Some "eve") (Some "staff"))).1.1
         ∧ Account._id a = 1%N ∧ Account.username a = "eve" ∧ Account.role a = "staff".
Proof.
  split.
  - destruct (updateAccount_effect sample_platform sample_world Session.fresh 7%N
                (Some "eve") (Some "admin")) as (_ & _ & _ & _ & _ & H & _).
    apply H. vm_compute. intros H1. repeat (apply elem_of_cons in H1 as [H1|H1]; [done|]).
    by apply elem_of_nil in H1.
  - destruct (updateAccount_effect sample_platform sample_world Session.fresh 1%N
                (Some "eve") (Some "staff")) as (_ & _ & _ & _ & _ & _ & H).
    apply (H "eve" "staff"); [apply list_elem_of_here|reflexivity|reflexivity].
Defined.

(** X11. [DELETE /api/accounts/:id] always answers 200. It leaves the
    accounts of other ids and the donors as they were; for an id no account
    has it changes nothing; and when account ids are unique, no account of
    that id is left. *)
Theorem deleteAccount_effect (P : Platform) (w : World) (s : Session.t) (X : ObjectId) :
  (handle P w s (DELETE_account X)).2
  = reply 200 (message true "Account deleted successfully.")
  ∧ other_accounts X (accounts (handle P w s (DELETE_account X)).1.1)
    = other_accounts X (accounts w)
  ∧ donors (handle P w s (DELETE_account X)).1.1 = donors w
  ∧ (X ∉ account_ids w → accounts (handle P w s (DELETE_account X)).1.1 = accounts w)
  ∧ (NoDup (account_ids w) → X ∉ account_ids (handle P w s (DELETE_account X)).1.1).
Proof.
  rewrite handle_unguarded by done. simpl. split_and!; try done.
  - apply delete_others.
  - apply delete_unknown.
  - apply delete_gone.
Qed.

Lemma deleteAccount_effect_witness :
  (1%N ∉ account_ids
           (handle sample_platform sample_world Session.fresh (DELETE_account 1%N)).1.1)
  ∧ accounts (handle sample_platform sample_world Session.fresh (DELETE_account 7%N)).1.1
    = accounts sample_world.
Proof.
  split.
  - destruct (deleteAccount_effect sample_platform sample_world Session.fresh 1%N)
      as (_ & _ & _ & _ & H).
    apply H. apply NoDup_singleton.
  - destruct (deleteAccount_effect sample_platform sample_world Session.fresh 7%N)
      as (_ & _ & _ & H & _).
    apply H. vm_compute. intros H1. repeat (apply elem_of_cons in H1 as [H1|H1]; [done|]).
    by apply elem_of_nil in H1.
Defined.

(** ** The donor store *)

Section DonorStoreMore.
Implicit Types (l : list Donor.t) (d : Donor.t) (X : ObjectId).

Lemma save_ids l d : map Donor._id (Donor.save d l) = map Donor._id l.
Proof. induction l as [|x l IH]; simpl; [done|]. case_bool_decide; simpl; congruence. Qed.

Lemma save_same l d X : Donor.findById l X = Some d → Donor.save d l = l.
Proof.
  induction l as [|x l IH]; simpl; [done|].
  destruct (bool_decide_reflect (Donor._id x = X)) as [E|N].
  - intros [= ->]. by rewrite bool_decide_eq_true_2.
  - intros H. pose proof (findById_id _ _ _ H) as Hd.
    rewrite bool_decide_eq_false_2 by congruence. by rewrite IH.
Qed.

Lemma save_save l d d' : Donor._id d = Donor._id d' → Donor.save d' (Donor.save d l) = Donor.save d' l.
Proof.
  intros E. induction l as [|x l IH]; simpl; [done|].
  destruct (bool_decide_reflect (Donor._id x = Donor._id d)) as [Ex|N]; simpl.
  - rewrite !bool_decide_eq_true_2 by congruence. done.
  - rewrite !bool_decide_eq_false_2 by congruence. by rewrite IH.
Qed.

Lemma delete_ids_sublist l X :
  map Donor._id (Donor.findByIdAndDelete l X) `sublist_of` map Donor._id l.
Proof.
  induction l as [|x l IH]; simpl; [done|]. case_bool_decide; simpl.
  - by apply sublist_cons.
  - by apply sublist_skip.
Qed.

Lemma findById_None l X : Donor.findById l X = None ↔ X ∉ map Donor._id l.
Proof.
  unfold Donor.findById. induction l as [|x l IH]; simpl.
  - split; [intros _; apply not_elem_of_nil|done].
  - rewrite not_elem_of_cons. destruct (bool_decide_reflect (Donor._id x = X)) as [E|N].
    + split; [done|]. by intros [? _].
    + rewrite IH. split; [intros Hn; split; [congruence|exact Hn]|by intros [_ ?]].
Qed.

Lemma delete_length l X d :
  Donor.findById l X = Some d → S (length (Donor.findByIdAndDelete l X)) = length l.
Proof.
  unfold Donor.findById. induction l as [|x l IH]; simpl; [done|].
  case_bool_decide; simpl; [done|]. intros Hf. by rewrite IH.
Qed.

Lemma delete_gone_donor l X :
  NoDup (map Donor._id l) → Donor.findById (Donor.findByIdAndDelete l X) X = None.
Proof.
  intros Hnd. apply findById_None. induction l as [|x l IH]; simpl; [apply not_elem_of_nil|].
  simpl in Hnd. apply NoDup_cons in Hnd as [H1 H2].
  destruct (bool_decide_reflect (Donor._id x = X)) as [E|N]; simpl.
  - by rewrite <- E.
  - apply not_elem_of_cons. split; [done|auto].
Qed.
End DonorStoreMore.

Lemma route_donor_ids P w s r :
  donor_ids (route P w s r).1.1 `sublist_of` donor_ids w.
Proof.
  unfold donor_ids. destruct r; simpl; try done.
  - unfold register. repeat case_match; done.
  - destruct (login_cases w s username password)
      as [(st & m & -> & _)|(a & u & _ & _ & _ & ->)]; done.
  - destruct (listDonors_cases P w s q) as [->|[docs ->]]; done.
  - unfold deleteDonor. case_match; [|done]. apply delete_ids_sublist.
  - unfold addDonation. case_match; [|done]. simpl. by rewrite save_ids.
  - unfold updateDonation. repeat case_match; try done. simpl. by rewrite save_ids.
  - unfold removeDonation. case_match; [|done]. simpl. by rewrite save_ids.
Qed.

(** X12. No request creates a donor or changes a donor's id: the ids in
    the collection after a request are those before it, in the same order,
    with at most the deleted one taken out. In particular ids that were
    unique stay unique. *)
Theorem no_donor_created (P : Platform) (w : World) (s : Session.t) (r : Request) :
  donor_ids (handle P w s r).1.1 `sublist_of` donor_ids w
  ∧ (NoDup (donor_ids w) → NoDup (donor_ids (handle P w s r).1.1)).
Proof.
  assert (H : donor_ids (handle P w s r).1.1 `sublist_of` donor_ids w).
  { destruct (handle_cases P w s r) as [->| ->]; [done|]. apply route_donor_ids. }
  split; [done|]. intros Hnd. by eapply sublist_NoDup.
Qed.

Lemma no_donor_created_witness :
  NoDup (donor_ids (handle sample_platform sample_world root_session (DELETE_donor 10%N)).1.1).
Proof.
  destruct (no_donor_created sample_platform sample_world root_session (DELETE_donor 10%N))
    as [_ H].
  apply H. vm_compute. apply NoDup_cons. split.
  - intros H1. repeat (apply elem_of_cons in H1 as [H1|H1]; [done|]).
    by apply elem_of_nil in H1.
  - apply NoDup_singleton.
Defined.

(** X13. [deleteDonor] answers 404, and changes nothing, exactly when no
    donor has the id. Otherwise it answers 200 and the collection has one
    document less; when donor ids are unique, the id is then unknown, so
    that deleting it again is answered 404. *)
Theorem deleteDonor_effect (w : World) (s : Session.t) (X : ObjectId) :
  (status (deleteDonor w s X).2 = 404 ↔ X ∉ donor_ids w)
  ∧ (X ∉ donor_ids w → (deleteDonor w s X).1 = (w, s))
  ∧ (X ∈ donor_ids w →
     (deleteDonor w s X).2 = reply 200 (message true "Donor removed")
     ∧ S (length (donors (deleteDonor w s X).1.1)) = length (donors w)
     ∧ accounts (deleteDonor w s X).1.1 = accounts w)
  ∧ (NoDup (donor_ids w) →
     Donor.findById (donors (deleteDonor w s X).1.1) X = None
     ∧ status (deleteDonor (deleteDonor w s X).1.1 s X).2 = 404).
Proof.
  unfold deleteDonor, donor_ids.
  destruct (Donor.findById (donors w) X) as [d|] eqn:E; simpl.
  - assert (Hin : X ∈ map Donor._id (donors w)).
    { destruct (decide (X ∈ map Donor._id (donors w))) as [?|Hn]; [done|].
      apply findById_None in Hn. congruence. }
    split_and!; try done.
    + intros _. split_and!; try done. by apply delete_length with d.
    + intros Hnd. rewrite delete_gone_donor by done. done.
  - apply findById_None in E as Hn. split_and!; try done.
    intros _. by rewrite E.
Qed.

Lemma deleteDonor_effect_witness :
  Donor.findById (donors (deleteDonor sample_world root_session 10%N).1.1) 10%N = None
  ∧ S (length (donors (deleteDonor sample_world root_session 10%N).1.1))
    = length (donors sample_world).
Proof.
  destruct (deleteDonor_effect sample_world root_session 10%N) as (_ & _ & H1 & H2).
  split.
  - apply H2. vm_compute. apply NoDup_cons. split.
    + intros H. repeat (apply elem_of_cons in H as [H|H]; [done|]).
      by apply elem_of_nil in H.
    + apply NoDup_singleton.
  - apply H1. apply list_elem_of_here.
Defined.

(** ** Donations *)

Lemma sum_amounts_snoc (l : list Donation.t) (x : Donation.t) :
  sum_amounts (l ++ [x])
  = match Donation.amount x with
    | Some a => (sum_amounts l + a)%Q
    | None => sum_amounts l
    end.
Proof.
  unfold sum_amounts. rewrite omap_app, fold_left_app. simpl.
  by destruct (Donation.amount x).
Qed.

Lemma filter_twice {A} (f : A → bool) (l : list A) :
  List.filter f (List.filter f l) = List.filter f l.
Proof.
  induction l as [|x l IH]; simpl; [done|].
  destruct (f x) eqn:E; simpl; [rewrite E|]; congruence.
Qed.

Lemma filter_all {A} (f : A → bool) (l : list A) :
  (∀ x, In x l → f x = true) → List.filter f l = l.
Proof.
  induction l as [|x l IH]; simpl; [done|]. intros H.
  rewrite (H x) by auto. rewrite IH; auto.
Qed.

Lemma with_donations_same (d : Donor.t) : Donor.with_donations d (Donor.donations d) = d.
Proof. by destruct d. Qed.

Lemma with_donors_same (w : World) : with_donors w (donors w) = w.
Proof. by destruct w. Qed.

Lemma assign_same (l : list Donation.t) (j : ObjectId) (x : Donation.t) :
  List.find (fun y => bool_decide (Donation._id y = j)) l = Some x →
  Donor.assign j x l = l.
Proof.
  induction l as [|y l IH]; simpl; [done|].
  destruct (bool_decide_reflect (Donation._id y = j)) as [E|N].
  - by intros [= ->].
  - intros H. by rewrite IH.
Qed.

(** X14. [addDonation] on a stored donor answers 200 with the donor as it
    is then stored: the same id, name, address and city, and the old
    donations followed by one with the id drawn and the amount and date
    sent. The donor's total grows by the amount sent, and stays when none
    is sent. On an unknown donor the answer is 404 and nothing changes. *)
Theorem addDonation_effect (w : World) (s : Session.t) (X : ObjectId)
    (amount : option Q) (date : option string) (fresh : ObjectId) :
  (∀ d, Donor.findById (donors w) X = Some d →
     ∃ d', (addDonation w s X amount date fresh).2 = donor_reply d'
           ∧ Donor.findById (donors (addDonation w s X amount date fresh).1.1) X = Some d'
           ∧ d' = Donor.with_donations d (Donor.donations d ++ [Donation.mk fresh amount date])
           ∧ sum_amounts (Donor.donations d')
             = match amount with
               | Some a => (sum_amounts (Donor.donations d) + a)%Q
               | None => sum_amounts (Donor.donations d)
               end
           ∧ donor_ids (addDonation w s X amount date fresh).1.1 = donor_ids w
           ∧ accounts (addDonation w s X amount date fresh).1.1 = accounts w)
  ∧ (Donor.findById (donors w) X = None →
     addDonation w s X amount date fresh = (w, s, reply 404 (message false "Donor not found"))).
Proof.
  unfold addDonation. split.
  - intros d E. rewrite E. eexists. split; [reflexivity|]. simpl.
    pose proof (findById_id _ _ _ E) as Hid. split_and!; try done.
    + by apply findById_save with d.
    + apply sum_amounts_snoc.
    + unfold donor_ids. simpl. apply save_ids.
  - by intros ->.
Qed.

Lemma addDonation_effect_witness :
  ∃ d', Donor.findById
          (donors (addDonation sample_world root_session 10%N (Some 20%Q)
                     (Some "2024-03-01") 102%N).1.1) 10%N = Some d'
        ∧ sum_amounts (Donor.donations d') = (sum_amounts (Donor.donations ann) + 20)%Q
        ∧ length (Donor.donations d') = 3.
Proof.
  destruct (addDonation_effect sample_world root_session 10%N (Some 20%Q)
              (Some "2024-03-01") 102%N) as [H _].
  destruct (H ann eq_refl) as (d' & _ & H1 & H2 & H3 & _).
  exists d'. split; [exact H1|]. split; [exact H3|]. rewrite H2. reflexivity.
Defined.

(** X15. [removeDonation] on a stored donor answers 200 with the donor as
    it is then stored: its donations are the old ones whose id, written
    out by [toString], differs from the text of the route parameter, in
    their order, and its other fields are kept. When no donation has that
    text as id, nothing changes, and so does removing the same text a
    second time. On an unknown donor the answer is 404. *)
Theorem removeDonation_effect (w : World) (s : Session.t) (X : ObjectId) (j : string) :
  (∀ d, Donor.findById (donors w) X = Some d →
     ∃ d', (removeDonation w s X j).2 = donor_reply d'
           ∧ Donor.findById (donors (removeDonation w s X j).1.1) X = Some d'
           ∧ Donor.donations d' = donations_but j (Donor.donations d)
           ∧ (∀ x, In x (Donor.donations d') ↔
                   In x (Donor.donations d) ∧ ObjectId_toString (Donation._id x) ≠ j)
           ∧ Donor._id d' = Donor._id d ∧ Donor.name d' = Donor.name d
           ∧ Donor.address d' = Donor.address d ∧ Donor.city d' = Donor.city d
           ∧ ((∀ x, In x (Donor.donations d) → ObjectId_toString (Donation._id x) ≠ j) →
              (removeDonation w s X j).1.1 = w))
  ∧ (Donor.findById (donors w) X = None →
     removeDonation w s X j = (w, s, reply 404 (message false "Donor not found")))
  ∧ (removeDonation (removeDonation w s X j).1.1 s X j).1.1 = (removeDonation w s X j).1.1.
Proof.
  unfold removeDonation. destruct (Donor.findById (donors w) X) as [d|] eqn:E; simpl.
  - pose proof (findById_id _ _ _ E) as Hid.
    set (d' := Donor.with_donations d _).
    assert (Hf : Donor.findById (Donor.save d' (donors w)) X = Some d')
      by by apply findById_save with d.
    split_and!; try done.
    + intros d0 [= <-]. exists d'. split_and!; try done.
      * intros x. unfold d'. simpl. rewrite filter_In, negb_true_iff.
        by rewrite bool_decide_eq_false.
      * intros Hnone. unfold d'.
        rewrite filter_all.
        -- rewrite with_donations_same, (save_same _ _ X) by done. apply with_donors_same.
        -- intros x Hx. apply negb_true_iff, bool_decide_eq_false_2. by apply Hnone.
    + rewrite Hf. simpl. unfold with_donors. simpl. f_equal.
      rewrite filter_twice. fold d'. by apply save_save.
  - rewrite E. done.
Qed.

(** On the sample data: the first donation of Ann is removed by its id in
    lower-case digits; the donation of Bob, of id 6e, stays when the
    parameter spells it 6E. *)
Lemma removeDonation_effect_witness :
  ∃ d', Donor.findById
          (donors (removeDonation sample_world root_session 10%N
                     "000000000000000000000064").1.1) 10%N = Some d'
        ∧ Donor.donations d' = [Donation.mk 101%N (Some 30%Q) (Some "2024-02-01")]
        ∧ (removeDonation sample_world root_session 11%N
             "00000000000000000000006E").1.1 = sample_world.
Proof.
  destruct (removeDonation_effect sample_world root_session 10%N "000000000000000000000064")
    as [H _].
  destruct (H ann eq_refl) as (d' & _ & H1 & H2 & _).
  exists d'. split; [exact H1|]. split; [exact H2|].
  destruct (removeDonation_effect sample_world root_session 11%N "00000000000000000000006E")
    as [H' _].
  destruct (H' bob eq_refl) as (d'' & _ & _ & _ & _ & _ & _ & _ & _ & H3).
  apply H3. intros x [<-|[]]. vm_compute. discriminate.
Defined.

(** X16. An update that sends neither an amount nor a date writes nothing:
    whatever the ids, the stores and the session are as before. *)
Theorem updateDonation_without_fields (w : World) (s : Session.t) (X j : ObjectId) :
  (updateDonation w s X j None None).1 = (w, s).
Proof.
  unfold updateDonation. destruct (Donor.findById (donors w) X) as [d|] eqn:E; [|done].
  destruct (Donor.donations_id d j) as [x|] eqn:F; [|done]. simpl.
  assert (Hx : Donation.mk (Donation._id x) (Donation.amount x) (Donation.date x) = x)
    by by destruct x.
  rewrite Hx, (assign_same _ _ _ F), with_donations_same, (save_same _ _ X) by done.
  by rewrite with_donors_same.
Qed.

(** ** Which stores a request may write *)

Lemma route_frame P w s r :
  (read_only r = true → (route P w s r).1.1 = w)
  ∧ (donor_endpoint r = true → accounts (route P w s r).1.1 = accounts w)
  ∧ (donor_endpoint r = false → donors (route P w s r).1.1 = donors w).
Proof.
  destruct r; simpl; split_and!; try done; intros _.
  - unfold register. repeat case_match; done.
  - destruct (login_cases w s username password)
      as [(st & m & -> & _)|(a & u & _ & _ & _ & ->)]; done.
  - destruct (login_cases w s username password)
      as [(st & m & -> & _)|(a & u & _ & _ & _ & ->)]; done.
  - destruct (listDonors_cases P w s q) as [->|[docs ->]]; done.
  - destruct (listDonors_cases P w s q) as [->|[docs ->]]; done.
  - unfold deleteDonor. by case_match.
  - unfold addDonation. by case_match.
  - unfold updateDonation. repeat case_match; done.
  - unfold removeDonation. by case_match.
Qed.

(** X17. The requests that read (the entry page, login, logout, the donor
    list and the account list) leave both stores as they were; the donor
    and donation endpoints never write the account store; and no other
    endpoint writes the donor store. *)
Theorem stores_written_by (P : Platform) (w : World) (s : Session.t) (r : Request) :
  (read_only r = true → (handle P w s r).1.1 = w)
  ∧ (donor_endpoint r = true → accounts (handle P w s r).1.1 = accounts w)
  ∧ (donor_endpoint r = false → donors (handle P w s r).1.1 = donors w).
Proof.
  destruct (handle_cases P w s r) as [->| ->]; [done|]. apply route_frame.
Qed.

Lemma stores_written_by_witness :
  (handle sample_platform sample_world root_session (GET_donors no_parameters)).1.1
  = sample_world
  ∧ accounts (handle sample_platform sample_world root_session (DELETE_donor 10%N)).1.1
    = accounts sample_world
  ∧ donors (handle sample_platform sample_world root_session (DELETE_account 1%N)).1.1
    = donors sample_world.
Proof.
  split_and!.
  - by apply (stores_written_by sample_platform sample_world root_session
                (GET_donors no_parameters)).
  - by apply (stores_written_by sample_platform sample_world root_session
                (DELETE_donor 10%N)).
  - by apply (stores_written_by sample_platform sample_world root_session
                (DELETE_account 1%N)).
Defined.

(** ** The donor list *)

Lemma if_truthy_blank {A} (x : option string) (f : string → A) (d : A) :
  if_truthy (blank_as_absent x) f d = if_truthy x f d.
Proof.
  destruct x as [t|]; [|done]. simpl. by destruct (JsString.truthy t) eqn:E; simpl; rewrite ?E.
Qed.

Lemma truthy_opt_blank (x : option string) :
  JsString.truthy_opt (blank_as_absent x) = JsString.truthy_opt x.
Proof.
  destruct x as [t|]; [|done]. simpl. by destruct (JsString.truthy t) eqn:E; simpl; rewrite ?E.
Qed.

Lemma add_regexp_blank P k x filter :
  add_regexp P k (blank_as_absent x) filter = add_regexp P k x filter.
Proof. apply if_truthy_blank. Qed.

Lemma pipeline_without_blanks P q : pipeline P (without_blanks q) = pipeline P q.
Proof.
  unfold pipeline, build_filter, bounded, total_bounds, without_blanks. simpl.
  rewrite add_regexp_blank.
  destruct (add_regexp P "name" (q_name q) ∅) as [f1|]; [|done]. simpl.
  rewrite add_regexp_blank.
  destruct (add_regexp P "city" (q_city q) f1) as [f2|]; [|done]. simpl.
  by rewrite !if_truthy_blank, !truthy_opt_blank.
Qed.

(** X18. A parameter of [GET /api/donors] that is the empty string counts
    as absent: the answer is that of the query without it. *)
Theorem listDonors_ignores_empty_parameters (P : Platform) (w : World) (s : Session.t)
    (q : DonorQuery) :
  listDonors P w s (without_blanks q) = listDonors P w s q.
Proof. unfold listDonors. by rewrite pipeline_without_blanks. Qed.

Lemma pipeline_result P q :
  (bad_pattern P (q_name q) || bad_pattern P (q_city q) = true
   ∧ ∃ e, pipeline P q = Throw e)
  ∨ (bad_pattern P (q_name q) || bad_pattern P (q_city q) = false
     ∧ ∃ stages, pipeline P q = Normal stages
                 ∧ forallb (accepted P) stages = negb (bad_sort_key P q)).
Proof.
  assert (Hs : ∀ f, forallb (accepted P)
                      ([Match f; AddFields_totalDonation]
                       ++ (if bounded q then [Match (total_bounds q)] else [])
                       ++ if_truthy (sortBy q)
                            (fun k => [Sort k (bool_decide (sortOrder q = Some "desc"))]) [])
                    = negb (bad_sort_key P q)).
  { intros f. unfold bad_sort_key, if_truthy. rewrite !forallb_app.
    destruct (bounded q); simpl;
      (destruct (sortBy q) as [k|]; [destruct (JsString.truthy k)|]; simpl;
       by rewrite ?andb_true_r, ?negb_involutive). }
  unfold pipeline, build_filter, add_regexp, bad_pattern, RegExp_i, if_truthy.
  destruct (q_name q) as [n|]; [destruct (JsString.truthy n); [destruct (regexp_i P n)|]|];
    (destruct (q_city q) as [c|];
       [destruct (JsString.truthy c); [destruct (regexp_i P c)|]|]); simpl;
    first [ left; split; [done|by eexists]
          | right; split; [done|]; eexists; split; [reflexivity|exact (Hs _)] ].
Qed.

(** X19. [GET /api/donors] answers 500 'Server error' exactly when its
    [try] block throws: a name or city parameter is given that is not a
    regular expression, or a [sortBy] is given that the store does not
    take as a sort key. Otherwise it answers 200 with a list of donors. *)
Theorem listDonors_status (P : Platform) (w : World) (s : Session.t) (q : DonorQuery) :
  ((listDonors P w s q).2 = reply 500 (message false "Server error")
   ↔ refused P q = true)
  ∧ ((∃ docs, (listDonors P w s q).2
               = reply 200 (JObj [("success", JBool true);
                                  ("donors", JArr (map pipedoc_json docs))]))
     ↔ refused P q = false).
Proof.
  unfold listDonors, refused, Donor_aggregate.
  destruct (pipeline_result P q) as [[Hb [e ->]]|[Hb (stages & -> & Ha)]];
    rewrite Hb; simpl.
  - split; (split; [try done; by intros [? ?]|done]).
  - rewrite Ha. destruct (bad_sort_key P q); simpl;
      (split; (split; [try done; try by intros [? ?]|try done; intros _; by eexists])).
Qed.

Lemma filter_matches_empty (l : list PipeDoc) : List.filter (matches ∅) l = l.
Proof. apply filter_all. intros x _. apply matches_empty. Qed.

(** X20. Without parameters, [GET /api/donors] lists every stored donor, in
    the order of the store, each with its total. *)
Theorem listDonors_without_parameters (P : Platform) (w : World) (s : Session.t) :
  listDonors P w s no_parameters
  = (w, s,
     reply 200 (JObj [("success", JBool true);
                      ("donors",
                       JArr (map (fun d => pipedoc_json
                                             {| doc := d;
                                                totalDonation :=
                                                  Some (sum_amounts (Donor.donations d)) |})
                                 (donors w)))])).
Proof.
  unfold listDonors. simpl. unfold aggregate. simpl.
  by rewrite filter_matches_empty, !map_map.
Qed.

(** X21. Any [sortOrder] other than ["desc"] sorts as no [sortOrder]
    does. *)
Theorem sortOrder_other_than_desc (P : Platform) (w : World) (s : Session.t) (q : DonorQuery) :
  sortOrder q ≠ Some "desc" →
  listDonors P w s q = listDonors P w s (with_sort q (sortBy q) None).
Proof.
  intros H. unfold listDonors, pipeline, build_filter, bounded, total_bounds. simpl.
  by rewrite bool_decide_eq_false_2.
Qed.

Lemma sortOrder_other_than_desc_witness :
  listDonors sample_platform sample_world root_session
    (with_sort no_parameters (Some "name") (Some "DESC"))
  = listDonors sample_platform sample_world root_session
      (with_sort no_parameters (Some "name") None).
Proof.
  apply (sortOrder_other_than_desc sample_platform sample_world root_session
           (with_sort no_parameters (Some "name") (Some "DESC"))).
  discriminate.
Defined.

Lemma insert_sorted_perm le x l : insert_sorted le x l ≡ₚ x :: l.
Proof.
  induction l as [|y l IH]; simpl; [done|].
  destruct (le x y); [done|]. rewrite IH. apply Permutation_swap.
Qed.

Lemma sort_docs_perm le l : sort_docs le l ≡ₚ l.
Proof.
  induction l as [|x l IH]; simpl; [done|].
  by rewrite insert_sorted_perm, IH.
Qed.

Lemma pipeline_sort P q k order :
  pipeline P (with_sort q k order)
  = stages ← pipeline P (with_sort q None None);
    mret (stages ++ if_truthy k (fun key => [Sort key (bool_decide (order = Some "desc"))]) []).
Proof.
  unfold pipeline, build_filter, bounded, total_bounds. simpl.
  destruct (add_regexp P "name" (q_name q) ∅) as [f1|]; [|done]. simpl.
  destruct (add_regexp P "city" (q_city q) f1) as [f2|]; [|done]. simpl.
  by rewrite app_nil_r.
Qed.

(** X22. Sorting only reorders: when the query without [sortBy] and
    [sortOrder] compiles, and the [sortBy] given, if any, is a key the
    store takes, the store answers the sorted query too, and the donors
    it lists are those it lists without sorting, as many times each. *)
Theorem sorting_permutes (P : Platform) (q : DonorQuery) (by_ order : option string)
    (stages : list stage) (ds : list Donor.t) :
  pipeline P (with_sort q None None) = Normal stages →
  if_truthy by_ (sort_key_ok P) true = true →
  Donor_aggregate P stages ds = Normal (aggregate P stages ds)
  ∧ ∃ stages' docs',
      pipeline P (with_sort q by_ order) = Normal stages'
      ∧ Donor_aggregate P stages' ds = Normal docs'
      ∧ docs' ≡ₚ aggregate P stages ds.
Proof.
  intros H Hk.
  assert (Ha : forallb (accepted P) stages = true).
  { destruct (pipeline_result P (with_sort q None None))
      as [[_ [e He]]|[_ (st & Hst & Hacc)]]; [congruence|].
    rewrite H in Hst. injection Hst as <-. by rewrite Hacc. }
  unfold Donor_aggregate. rewrite Ha. split; [done|].
  rewrite pipeline_sort, H. simpl. unfold if_truthy in *.
  destruct by_ as [k|]; [destruct (JsString.truthy k)|]; eexists _, _;
    (split; [reflexivity|]); rewrite forallb_app, Ha; simpl; rewrite ?Hk; simpl;
    (split; [reflexivity|]); unfold aggregate; rewrite fold_left_app; simpl;
    [apply sort_docs_perm|done|done].
Qed.

Lemma sorting_permutes_witness :
  ∃ stages' docs',
    pipeline by_total_platform (with_sort no_parameters (Some "totalDonation") (Some "desc"))
    = Normal stages'
    ∧ Donor_aggregate by_total_platform stages' [ann; bob] = Normal docs'
    ∧ docs' ≡ₚ aggregate by_total_platform [Match ∅; AddFields_totalDonation] [ann; bob].
Proof.
  apply (sorting_permutes by_total_platform no_parameters (Some "totalDonation")
           (Some "desc") [Match ∅; AddFields_totalDonation] [ann; bob]); reflexivity.
Defined.

Lemma insert_sorted_ordered le x l :
  (∀ a b, le a b = false → le b a = true) →
  ordered le l = true → ordered le (insert_sorted le x l) = true.
Proof.
  intros Htot. induction l as [|y l IH]; [done|]. intros Hl.
  cbn [insert_sorted]. destruct (le x y) eqn:E.
  - cbn [ordered]. by rewrite E.
  - assert (Hyx : le y x = true) by by apply Htot.
    assert (Hl' : ordered le l = true).
    { destruct l as [|z l]; [done|]. cbn [ordered] in Hl. by apply andb_true_iff in Hl as [_ ?]. }
    specialize (IH Hl'). destruct l as [|z l].
    + cbn. by rewrite Hyx.
    + cbn [insert_sorted] in *. cbn [ordered] in Hl. apply andb_true_iff in Hl as [Hyz _].
      destruct (le x z); cbn [ordered] in *.
      * by rewrite Hyx.
      * by rewrite Hyz.
Qed.

Lemma sort_docs_ordered le l :
  (∀ a b, le a b = false → le b a = true) → ordered le (sort_docs le l) = true.
Proof.
  intros Htot. induction l as [|x l IH]; [done|]. simpl. by apply insert_sorted_ordered.
Qed.

(** X23. With a [sortBy], and an order of the platform that puts any two
    documents one way or the other for that key, each donor listed is in
    that order with the next one: ascending, or descending when
    [sortOrder] is ["desc"]. *)
Theorem sorted_listing (P : Platform) (q : DonorQuery) (k : string)
    (stages : list stage) (ds : list Donor.t) :
  pipeline P q = Normal stages →
  sortBy q = Some k → JsString.truthy k = true →
  (∀ a b, bson_le P k a b = false → bson_le P k b a = true) →
  ordered (sort_order P k (bool_decide (sortOrder q = Some "desc")))
          (aggregate P stages ds) = true.
Proof.
  intros Hp Hk Ht Htot. revert Hp. unfold pipeline.
  destruct (build_filter P q) as [f|]; [|done]. simpl. intros [= <-].
  unfold aggregate, if_truthy. rewrite Hk, Ht. cbn [fold_left]. rewrite fold_left_app.
  cbn [fold_left run_stage].
  apply sort_docs_ordered. intros a b. unfold sort_order.
  destruct (bool_decide (sortOrder q = Some "desc")); apply Htot.
Qed.

Lemma by_total_platform_total k a b :
  bson_le by_total_platform k a b = false → bson_le by_total_platform k b a = true.
Proof.
  simpl. destruct (totalDonation a) as [x|], (totalDonation b) as [y|]; try done.
  intros H. apply Qle_bool_iff. apply Qlt_le_weak, Qnot_le_lt.
  intros Hle. apply Qle_bool_iff in Hle. congruence.
Qed.

Lemma sorted_listing_witness :
  ordered (sort_order by_total_platform "totalDonation" true)
    (aggregate by_total_platform
       [Match ∅; AddFields_totalDonation; Sort "totalDonation" true] [ann; bob]) = true.
Proof.
  apply (sorted_listing by_total_platform
           (with_sort no_parameters (Some "totalDonation") (Some "desc"))
           "totalDonation" _ [ann; bob]); try reflexivity.
  apply by_total_platform_total.
Defined.

(** ** Filtering by name and city *)

Lemma matches_lookup (spec : gmap string cond) (d : PipeDoc) :
  matches spec d = true
  ↔ ∀ k c, spec !! k = Some c → holds c (path_value k d) = true.
Proof.
  unfold matches. rewrite forallb_forall. split.
  - intros H k c Hk. apply (H (k, c)). apply list_elem_of_In.
    by apply elem_of_map_to_list.
  - intros H [k c] Hin. apply list_elem_of_In, elem_of_map_to_list in Hin.
    by apply H.
Qed.

Lemma matches_insert_empty (k : string) (c : cond) (d : PipeDoc) :
  matches (<[k := c]> ∅) d = true ↔ holds c (path_value k d) = true.
Proof.
  rewrite matches_lookup. split.
  - intros H. apply H. apply lookup_insert_eq.
  - intros H k' c' Hk. apply lookup_insert_Some in Hk as [[<- <-]|[_ Hk]]; [done|].
    by rewrite lookup_empty in Hk.
Qed.

Lemma matches_insert_two (k1 k2 : string) (c1 c2 : cond) (d : PipeDoc) :
  k1 ≠ k2 →
  matches (<[k2 := c2]> (<[k1 := c1]> ∅)) d = true
  ↔ holds c1 (path_value k1 d) = true ∧ holds c2 (path_value k2 d) = true.
Proof.
  intros Hne. rewrite matches_lookup. split.
  - intros H. split; apply H.
    + rewrite lookup_insert_ne by done. apply lookup_insert_eq.
    + apply lookup_insert_eq.
  - intros [H1 H2] k c Hk. apply lookup_insert_Some in Hk as [[<- <-]|[_ Hk]]; [done|].
    apply lookup_insert_Some in Hk as [[<- <-]|[_ Hk]]; [done|].
    by rewrite lookup_empty in Hk.
Qed.

Lemma build_filter_matches P q filter (x : Donor.t) :
  build_filter P q = Normal filter →
  matches filter (stored x) = true
  ↔ field_test P (q_name q) (Donor.name x) = true
    ∧ field_test P (q_city q) (Donor.city x) = true.
Proof.
  unfold build_filter, add_regexp, field_test, if_truthy, RegExp_i.
  destruct (q_name q) as [n|]; [destruct (JsString.truthy n); [destruct (regexp_i P n)|]|];
    (destruct (q_city q) as [c|];
       [destruct (JsString.truthy c); [destruct (regexp_i P c)|]|]); simpl;
    intros H; try done; injection H as <-;
    rewrite ?matches_insert_two, ?matches_insert_empty, ?matches_empty by done;
    simpl; tauto.
Qed.

(** X24. The donors [GET /api/donors] lists are the stored donors whose
    name passes the test of the [name] parameter and whose city passes the
    test of the [city] parameter (a parameter that is absent or empty
    tests nothing), each with its total, and which match the object of the
    second [$match] when a bound is given. *)
Theorem name_and_city_filter (P : Platform) (q : DonorQuery) (stages : list stage)
    (ds : list Donor.t) (d : PipeDoc) :
  pipeline P q = Normal stages →
  In d (aggregate P stages ds)
  ↔ ∃ x, In x ds
         ∧ field_test P (q_name q) (Donor.name x) = true
         ∧ field_test P (q_city q) (Donor.city x) = true
         ∧ d = {| doc := x; totalDonation := Some (sum_amounts (Donor.donations x)) |}
         ∧ (bounded q = true → matches (total_bounds q) d = true).
Proof.
  intros Hp. destruct (aggregate_In P q stages ds Hp) as (filter & Hf & H).
  rewrite H. split.
  - intros (x & Hx & Hm & Hd & Hb). exists x.
    apply (build_filter_matches P q filter x Hf) in Hm as [Hn Hc].
    split; [exact Hx|]. split; [exact Hn|]. split; [exact Hc|]. split; [exact Hd|exact Hb].
  - intros (x & Hx & Hn & Hc & Hd & Hb). exists x.
    split; [exact Hx|]. split; [|split; [exact Hd|exact Hb]].
    apply (build_filter_matches P q filter x Hf). split; [exact Hn|exact Hc].
Qed.

Lemma name_and_city_filter_witness :
  In {| doc := ann; totalDonation := Some (sum_amounts (Donor.donations ann)) |}
     (aggregate by_total_platform
        [Match (<["name" := CRegExp (fun s => bool_decide (s = "Ann" ∨ s = "ann"))]> ∅);
         AddFields_totalDonation] [ann; bob]).
Proof.
  apply (name_and_city_filter by_total_platform
           {| q_name := Some "ann"; q_city := None; minTotal := None; maxTotal := None;
              sortBy := None; sortOrder := None |}
           _ [ann; bob]); [reflexivity|].
  exists ann. split; [by left|]. split; [reflexivity|]. split; [reflexivity|].
  split; [reflexivity|]. discriminate.
Defined.

(** ** Composing donation requests *)

Lemma assign_assign (l : list Donation.t) (j : ObjectId) (x y : Donation.t) :
  Donation._id x = j → Donor.assign j y (Donor.assign j x l) = Donor.assign j y l.
Proof.
  intros Hx. induction l as [|z l IH]; simpl; [done|].
  destruct (bool_decide_reflect (Donation._id z = j)) as [E|N]; simpl.
  - by rewrite bool_decide_eq_true_2.
  - rewrite bool_decide_eq_false_2 by done. by rewrite IH.
Qed.

Lemma nullish_twice {A} (a b : option A) : nullish a (nullish a b) = nullish a b.
Proof. by destruct a. Qed.

(** X25. Sending the same update of a donation a second time changes
    nothing more: the stores after the second request are those after the
    first. *)
Theorem updateDonation_idempotent (w : World) (s : Session.t) (X j : ObjectId)
    (amount : option Q) (date : option string) :
  (updateDonation (updateDonation w s X j amount date).1.1 s X j amount date).1.1
  = (updateDonation w s X j amount date).1.1.
Proof.
  unfold updateDonation at 2 3.
  destruct (Donor.findById (donors w) X) as [d|] eqn:E; simpl.
  - destruct (Donor.donations_id d j) as [x|] eqn:F; simpl.
    + pose proof (findById_id _ _ _ E) as Hid. pose proof (find_donation_id _ _ _ F) as Hx.
      set (x' := Donation.mk _ _ _). set (d' := Donor.with_donations d _).
      unfold updateDonation. simpl.
      rewrite (findById_save _ X d d') by done.
      assert (F' : Donor.donations_id d' j = Some x').
      { unfold Donor.donations_id, d'. simpl. by apply (find_assign _ _ x). }
      rewrite F'. simpl. rewrite !nullish_twice. fold x'.
      rewrite assign_assign by done. unfold with_donors. simpl. f_equal.
      by apply save_save.
    + unfold updateDonation. by rewrite E, F.
  - unfold updateDonation. by rewrite E.
Qed.

Lemma donations_but_snoc_fresh (l : list Donation.t) (x : Donation.t) :
  (∀ y, In y l → ObjectId_toString (Donation._id y) ≠ ObjectId_toString (Donation._id x)) →
  donations_but (ObjectId_toString (Donation._id x)) (l ++ [x]) = l.
Proof.
  intros H. unfold donations_but. rewrite List.filter_app. cbn [List.filter].
  rewrite bool_decide_eq_true_2 by done. cbn [negb]. rewrite app_nil_r.
  apply filter_all. intros y Hy. apply negb_true_iff, bool_decide_eq_false_2. by apply H.
Qed.

Lemma removeDonation_found (w : World) (s : Session.t) (X : ObjectId) (j : string)
    (d : Donor.t) :
  Donor.findById (donors w) X = Some d →
  (removeDonation w s X j).1.1
  = with_donors w (Donor.save (Donor.with_donations d (donations_but j (Donor.donations d)))
                              (donors w)).
Proof. intros E. unfold removeDonation. rewrite E. reflexivity. Qed.

Lemma addDonation_found (w : World) (s : Session.t) (X fresh : ObjectId)
    (amount : option Q) (date : option string) (d : Donor.t) :
  Donor.findById (donors w) X = Some d →
  (addDonation w s X amount date fresh).1.1
  = with_donors w (Donor.save (Donor.with_donations d
                                 (Donor.donations d ++ [Donation.mk fresh amount date]))
                              (donors w)).
Proof. intros E. unfold addDonation. rewrite E. reflexivity. Qed.

Lemma add_then_remove_world (w : World) (s : Session.t) (X fresh : ObjectId)
    (amount : option Q) (date : option string) (d : Donor.t) :
  Donor.findById (donors w) X = Some d →
  (∀ y, In y (Donor.donations d) →
        ObjectId_toString (Donation._id y) ≠ ObjectId_toString fresh) →
  (removeDonation (addDonation w s X amount date fresh).1.1 s X
     (ObjectId_toString fresh)).1.1 = w.
Proof.
  intros E Hfresh. pose proof (findById_id _ _ _ E) as Hid.
  rewrite (addDonation_found w s X fresh amount date d E).
  set (d' := Donor.with_donations d (Donor.donations d ++ [Donation.mk fresh amount date])).
  assert (Hf : Donor.findById (donors (with_donors w (Donor.save d' (donors w)))) X = Some d')
    by (cbn [donors with_donors]; by apply findById_save with d).
  rewrite (removeDonation_found _ s X _ d' Hf).
  assert (Hd : donations_but (ObjectId_toString fresh) (Donor.donations d')
               = Donor.donations d).
  { exact (donations_but_snoc_fresh (Donor.donations d) (Donation.mk fresh amount date)
             Hfresh). }
  rewrite Hd.
  replace (Donor.with_donations d' (Donor.donations d)) with d by by destruct d.
  unfold with_donors. cbn [donors accounts].
  rewrite save_save by done. rewrite (save_same _ _ X) by done. by destruct w.
Qed.

(** X26. Adding a donation to a stored donor and then removing it, by the
    id it was given written out in full, gives the donor back its list of
    donations, with its id, name, address and city; the other donors and
    the accounts are as before. This holds provided no donation of the
    donor had an id written the same. *)
Theorem add_then_remove_donation (w : World) (s : Session.t) (X fresh : ObjectId)
    (amount : option Q) (date : option string) (d : Donor.t) :
  Donor.findById (donors w) X = Some d →
  (∀ y, In y (Donor.donations d) →
        ObjectId_toString (Donation._id y) ≠ ObjectId_toString fresh) →
  ∃ d2,
    Donor.findById
      (donors (removeDonation (addDonation w s X amount date fresh).1.1 s X
                 (ObjectId_toString fresh)).1.1) X = Some d2
    ∧ Donor.donations d2 = Donor.donations d
    ∧ Donor._id d2 = Donor._id d ∧ Donor.name d2 = Donor.name d
    ∧ Donor.address d2 = Donor.address d ∧ Donor.city d2 = Donor.city d
    ∧ others X (donors (removeDonation (addDonation w s X amount date fresh).1.1 s X
                          (ObjectId_toString fresh)).1.1) = others X (donors w)
    ∧ accounts (removeDonation (addDonation w s X amount date fresh).1.1 s X
                  (ObjectId_toString fresh)).1.1 = accounts w.
Proof.
  intros E Hfresh. rewrite (add_then_remove_world w s X fresh amount date d E Hfresh).
  by exists d.
Qed.

Lemma add_then_remove_donation_witness :
  ∃ d2,
    Donor.findById
      (donors (removeDonation
                 (addDonation sample_world root_session 10%N (Some 20%Q)
                    (Some "2024-03-01") 102%N).1.1
                 root_session 10%N (ObjectId_toString 102%N)).1.1) 10%N = Some d2
    ∧ Donor.donations d2 = Donor.donations ann.
Proof.
  destruct (add_then_remove_donation sample_world root_session 10%N 102%N (Some 20%Q)
              (Some "2024-03-01") ann eq_refl) as (d2 & H1 & H2 & _).
  - intros y [<-|[<-|[]]]; vm_compute; discriminate.
  - by exists d2.
Defined.

(** ** Login against a hashed password *)

(** C1, as the code has it. In any state the server can be in, a login
    with the plain-text password of an account whose stored password is
    the bcrypt hash of it, as register writes it, is answered 401 and
    records no session user: login compares the stored hash with the plain
    text. *)
Theorem hashed_account_login_rejected (P : Platform) (w0 w : World) (s : Session.t)
    (u p salt : string) (a : Account.t) :
  reachable P w0 w s →
  Account.findOne (accounts w) (JsString.trim u) = Some a →
  Account.password a = bcrypt_hash P salt p →
  JsString.starts_with "$2b$10$" p = false →
  handle P w s (POST_login (Some u) (Some p))
  = (w, s, reply 401 (message false "Invalid credentials")).
Proof.
  intros _ Hf Ha Hp. rewrite handle_unguarded by done. simpl.
  unfold login, login_try. simpl. rewrite Hf. simpl.
  case_bool_decide as E; [|done].
  injection E as E. pose proof (bcrypt_hash_prefix P salt p) as Hh.
  rewrite <- Ha, E in Hh. congruence.
Qed.

Lemma hashed_account_login_rejected_witness :
  handle sample_platform hashed_world Session.fresh (POST_login (Some "carol") (Some "secret"))
  = (hashed_world, Session.fresh, reply 401 (message false "Invalid credentials")).
Proof.
  apply (hashed_account_login_rejected sample_platform hashed_world hashed_world
           Session.fresh "carol" "secret" "abcdefghijklmnopqrstuv"
           (Account.mk 2%N "staff" "carol"
              (bcrypt_hash sample_platform "abcdefghijklmnopqrstuv" "secret")));
    [apply reach_start|reflexivity|reflexivity|reflexivity].
Defined.

(** ** Requests as received *)

Lemma serve_well_typed P w s r : serve P w s (well_typed r) = Sent (handle P w s r).
Proof.
  unfold serve, handle. replace (received_guarded (well_typed r)) with (guarded r)
    by by destruct r.
  assert (H : serve_route P w s (well_typed r) = Sent (route P w s r)).
  { destruct r; simpl; try done.
    unfold updateDonation. destruct (Donor.findById (donors w) donorId) as [d|]; [|done].
    by destruct (Donor.donations_id d donationId). }
  destruct (guarded r); [destruct (requireLogin s)|]; done.
Qed.


